(** * patch-finder: the identifier classifier and the extraction helpers

    A shallow embedding of [patchfinder/context.py] and
    [patchfinder/utils.py], with the properties of the design document
    stated over it.

    Python values are modelled as follows.
    - A [str] is a [string]; its characters are the code points below 256.
      On these, [\d] is the ASCII digits, [\s] is [str.isspace] and
      case-insensitive comparison is comparison after [str.lower].
    - A compiled pattern is a [regex] syntax tree, matched by a
      backtracking matcher with Python's greedy order.
    - An object is its class together with its [__dict__], a finite map
      from attribute names to values.
    - A call that can raise returns a [result]. *)

From Stdlib Require Import String Ascii List ZArith Bool Lia.
From stdpp Require Import base option gmap strings list.

Set Warnings "-register-all".

(** ** Characters *)

Module PyChar.

Definition code (c : ascii) : nat := nat_of_ascii c.

(** [str.isspace] on one character: TAB..CR, FS..US, space, NEL, NBSP. *)
Definition isspace (c : ascii) : bool :=
  let n := code c in
  ((9 <=? n) && (n <=? 13)) || ((28 <=? n) && (n <=? 32))
  || (n =? 133) || (n =? 160).

(** [str.isdecimal] on one character. *)
Definition isdecimal (c : ascii) : bool :=
  let n := code c in (48 <=? n) && (n <=? 57).

(** [str.lower] on one character: A-Z and the accented capitals
    192..222 (except the multiplication sign 215) move up by 32. *)
Definition lower (c : ascii) : ascii :=
  let n := code c in
  if ((65 <=? n) && (n <=? 90))
     || ((192 <=? n) && (n <=? 222) && negb (n =? 215))
  then ascii_of_nat (n + 32) else c.

Definition newline : ascii := ascii_of_nat 10.

End PyChar.

Local Open Scope string_scope.

(** ** Strings *)

Module PyStr.

(** [s.rstrip()]: drop the trailing whitespace. *)
Fixpoint rstrip (s : string) : string :=
  match s with
  | EmptyString => EmptyString
  | String c s' =>
      match rstrip s' with
      | EmptyString => if PyChar.isspace c then EmptyString else String c EmptyString
      | t => String c t
      end
  end.

(** [s.startswith(p)] *)
Fixpoint startswith (p s : string) : bool :=
  match p, s with
  | EmptyString, _ => true
  | String a p', String b s' => Ascii.eqb a b && startswith p' s'
  | String _ _, EmptyString => false
  end.

(** [t in s] *)
Fixpoint contains (t s : string) : bool :=
  startswith t s ||
  match s with
  | EmptyString => false
  | String _ s' => contains t s'
  end.

(** The first [n] characters. *)
Fixpoint take (n : nat) (s : string) : string :=
  match n, s with
  | S n', String c s' => String c (take n' s')
  | _, _ => EmptyString
  end.

End PyStr.

(** ** Regular expressions (the fragment of [re] the program uses) *)

Inductive regex : Type :=
| Eps                        (* the empty pattern *)
| Lit (c : ascii)            (* an ordinary character *)
| Any                        (* .   any character but a newline *)
| Digit                      (* \d *)
| Space                      (* \s *)
| Bol                        (* ^   start of the string *)
| Eol                        (* $   end of the string, or before a final newline *)
| Cat (r1 r2 : regex)        (* r1 r2 *)
| Plus (r : regex)           (* r+  greedy *)
| Group (i : nat) (r : regex). (* ( r ), the i-th group *)

Module Re.

(** The pattern whose text is a run of ordinary characters. *)
Fixpoint lit (s : string) : regex :=
  match s with
  | EmptyString => Eps
  | String c s' => Cat (Lit c) (lit s')
  end.

(** Concatenation of the pieces of a pattern, left to right. *)
Definition cats (rs : list regex) : regex := fold_right Cat Eps rs.

(** [r{3,}] *)
Definition at_least3 (r : regex) : regex := Cat r (Cat r (Plus r)).

(** Matcher state: the text still to read, whether the position is the
    start of the string, and the groups closed so far. *)
Record mstate : Type := MState {
  rest : string;
  at_start : bool;
  caps : list (nat * string)
}.

Definition advance (st : mstate) (s' : string) : mstate :=
  MState s' false (caps st).

Definition char_step (p : ascii -> bool) (st : mstate)
    (k : mstate -> option (list (nat * string))) : option (list (nat * string)) :=
  match rest st with
  | String c s' => if p c then k (advance st s') else None
  | EmptyString => None
  end.

Definition lit_test (ignorecase : bool) (a c : ascii) : bool :=
  if ignorecase then Ascii.eqb (PyChar.lower c) (PyChar.lower a)
  else Ascii.eqb c a.

Definition at_eol (s : string) : bool :=
  match s with
  | EmptyString => true
  | String c EmptyString => Ascii.eqb c PyChar.newline
  | _ => false
  end.

(** Backtracking matcher in continuation-passing style: [k] is what
    remains to be matched after [r].  [Plus] tries one more iteration
    before it tries the continuation (greedy); an iteration that reads
    nothing is not repeated. *)
Fixpoint run (ignorecase : bool) (r : regex) (st : mstate)
    (k : mstate -> option (list (nat * string))) {struct r}
    : option (list (nat * string)) :=
  match r with
  | Eps => k st
  | Lit a => char_step (lit_test ignorecase a) st k
  | Any => char_step (fun c => negb (Ascii.eqb c PyChar.newline)) st k
  | Digit => char_step PyChar.isdecimal st k
  | Space => char_step PyChar.isspace st k
  | Bol => if at_start st then k st else None
  | Eol => if at_eol (rest st) then k st else None
  | Cat r1 r2 => run ignorecase r1 st (fun st1 => run ignorecase r2 st1 k)
  | Plus r1 =>
      run ignorecase r1 st (fun st1 =>
        (fix more (fuel : nat) (cur : mstate) {struct fuel} :=
           match fuel with
           | O => k cur
           | S fuel' =>
               match run ignorecase r1 cur (fun nxt =>
                       if Nat.ltb (String.length (rest nxt)) (String.length (rest cur))
                       then more fuel' nxt else None) with
               | Some c => Some c
               | None => k cur
               end
           end) (String.length (rest st1)) st1)
  | Group i r1 =>
      run ignorecase r1 st (fun st1 =>
        let n := String.length (rest st) - String.length (rest st1) in
        k (MState (rest st1) (at_start st1)
                  ((i, PyStr.take n (rest st)) :: caps st1)))
  end.

Fixpoint ngroups (r : regex) : nat :=
  match r with
  | Cat r1 r2 => ngroups r1 + ngroups r2
  | Plus r1 => ngroups r1
  | Group _ r1 => S (ngroups r1)
  | _ => 0
  end.

Fixpoint cap_lookup (i : nat) (cs : list (nat * string)) : option string :=
  match cs with
  | [] => None
  | (j, s) :: cs' => if Nat.eqb i j then Some s else cap_lookup i cs'
  end.

(** [m.groups()]: the text of groups 1..n, [None] for a group that took
    no part in the match. *)
Definition groups (r : regex) (cs : list (nat * string)) : list (option string) :=
  List.map (fun i => cap_lookup i cs) (seq 1 (ngroups r)).

(** [re.match(r, s)] / [r.match(s)]: a match starting at the first
    character; the result is [m.groups()]. *)
Definition match_ (ignorecase : bool) (r : regex) (s : string)
    : option (list (option string)) :=
  match run ignorecase r (MState s true []) (fun st => Some (caps st)) with
  | Some cs => Some (groups r cs)
  | None => None
  end.

(** [r.search(s)]: the first position where a match starts. *)
Fixpoint search_from (ignorecase : bool) (r : regex) (first : bool) (s : string)
    : option (list (option string)) :=
  match run ignorecase r (MState s first []) (fun st => Some (caps st)) with
  | Some cs => Some (groups r cs)
  | None =>
      match s with
      | EmptyString => None
      | String _ s' => search_from ignorecase r false s'
      end
  end.

Definition search (ignorecase : bool) (r : regex) (s : string)
    : option (list (option string)) :=
  search_from ignorecase r true s.

(** Truth value of a match object. *)
Definition matches (ignorecase : bool) (r : regex) (s : string) : bool :=
  match match_ ignorecase r s with Some _ => true | None => false end.

End Re.

(** ** Values, exceptions, objects *)

(** A compiled pattern object: its flags and its syntax tree. *)
Record pattern : Type := Pattern {
  ignorecase : bool;
  tree : regex
}.

Inductive pyval : Type :=
| PNone
| PBool (b : bool)
| PInt (z : Z)
| PStr (s : string)
| PList (l : list pyval)
| PDict (items : list (string * pyval))   (* items in insertion order *)
| PSet (s : gset string)
| PPattern (p : pattern).

(** [bool(v)] *)
Definition truthy (v : pyval) : bool :=
  match v with
  | PNone => false
  | PBool b => b
  | PInt z => negb (Z.eqb z 0)
  | PStr s => negb (String.eqb s "")
  | PList l => match l with [] => false | _ => true end
  | PDict d => match d with [] => false | _ => true end
  | PSet s => negb (bool_decide (s = ∅))
  | PPattern _ => true
  end.

(** An exception: the name of its class and its message. *)
Record exn : Type := Exn {
  exn_class : string;
  exn_msg : string
}.

Inductive result (A : Type) : Type :=
| Return (a : A)
| Raise (e : exn).
Arguments Return {A} a.
Arguments Raise {A} e.

Inductive pyclass : Type :=
| Vulnerability_cls
| UnparsableVulnerability_cls
| CVE_cls
| DSA_cls
| RHSA_cls.

(** An object: its class and its [__dict__]. *)
Record object : Type := Object {
  class_of : pyclass;
  attrs : gmap string pyval
}.

Definition getattr (o : object) (name : string) : option pyval :=
  attrs o !! name.

(** [issubclass] on the hierarchy of [context.py]. *)
Definition issubclass (c d : pyclass) : bool :=
  match c, d with
  | Vulnerability_cls, Vulnerability_cls => true
  | UnparsableVulnerability_cls, (Vulnerability_cls | UnparsableVulnerability_cls) => true
  | CVE_cls, (Vulnerability_cls | CVE_cls) => true
  | DSA_cls, (Vulnerability_cls | UnparsableVulnerability_cls | DSA_cls) => true
  | RHSA_cls, (Vulnerability_cls | UnparsableVulnerability_cls | RHSA_cls) => true
  | _, _ => false
  end.

Definition isinstance (o : object) (d : pyclass) : bool :=
  issubclass (class_of o) d.

(** ** context.py *)

(** [Vulnerability.__init__] *)
Definition Vulnerability_init (self : gmap string pyval)
    (vuln_id : string) (entrypoint_urls : pyval) (packages : pyval)
    : gmap string pyval :=
  let self := <["vuln_id" := PStr vuln_id]> self in
  let self := <["entrypoint_urls" := entrypoint_urls]> self in
  <["packages" := packages]> self.

Definition allowed_keys : gset string :=
  {[ "start_block"; "end_block"; "search_params";
     "as_per_block"; "xpaths"; "key_list" ]}.

(** [self.__dict__.update(new)]: the entries of [new] win. *)
Definition dict_update (self new : gmap string pyval) : gmap string pyval :=
  new ∪ self.

(** [UnparsableVulnerability.__init__]; [kwargs] is the dictionary of the
    extra keyword arguments. *)
Definition UnparsableVulnerability_init (self : gmap string pyval)
    (vuln_id : string) (packages : pyval) (base_url : string)
    (parse_mode : string) (entrypoint_urls : pyval)
    (kwargs : gmap string pyval) : gmap string pyval :=
  let self := <["base_url" := PStr base_url]> self in
  let self := <["equivalent_vulns" := PList []]> self in
  let self := <["parse_mode" := PStr parse_mode]> self in
  let self := <["allowed_keys" := PSet allowed_keys]> self in
  let entrypoint_urls :=
    if truthy entrypoint_urls then entrypoint_urls else PList [] in
  let self :=
    dict_update self (filter (fun kv => kv.1 ∈ allowed_keys) kwargs) in
  Vulnerability_init self vuln_id entrypoint_urls packages.

(** The characters that stand for themselves in the text of a pattern:
    all but the special ones. *)
Definition ordinary (c : ascii) : bool :=
  negb (existsb (Ascii.eqb c)
          [ "."; "^"; "$"; "*"; "+"; "?"; "{"; "}"; "["; "]"; "092"; "|"; "("; ")" ]%char).

Fixpoint ordinary_text (s : string) : bool :=
  match s with
  | EmptyString => true
  | String c s' => ordinary c && ordinary_text s'
  end.

(** The call [UnparsableVulnerability(vuln_id, packages, base_url,
    parse_mode, **keywords)]: a keyword named like a parameter that a
    positional argument has bound raises [TypeError]; the keyword
    [entrypoint_urls] binds to the parameter of that name; the other
    keywords are the [kwargs] of [__init__].  Of the message of the
    [TypeError], which goes on to name the parameter, the fixed part is
    kept. *)
Definition UnparsableVulnerability_new
    (vuln_id : string) (packages : pyval) (base_url parse_mode : string)
    (keywords : gmap string pyval) : result (gmap string pyval) :=
  if existsb (fun p => match keywords !! p with Some _ => true | None => false end)
       ["self"; "vuln_id"; "packages"; "base_url"; "parse_mode"]
  then Raise (Exn "TypeError" "got multiple values for argument")
  else
    Return (UnparsableVulnerability_init ∅ vuln_id packages base_url parse_mode
              (default PNone (keywords !! "entrypoint_urls"))
              (delete "entrypoint_urls" keywords)).

(** [CVE.__init__] *)
Definition CVE_entrypoint_urls (vuln_id : string) : list string :=
  [ "https://nvd.nist.gov/vuln/detail/" +:+ vuln_id;
    "https://cve.mitre.org/cgi-bin/cvename.cgi?name=" +:+ vuln_id;
    "https://security-tracker.debian.org/tracker/" +:+ vuln_id ].

Definition CVE (vuln_id : string) (packages : pyval) : object :=
  let entrypoint_urls := PList (List.map PStr (CVE_entrypoint_urls vuln_id)) in
  Object CVE_cls (Vulnerability_init ∅ vuln_id entrypoint_urls packages).

(** [DSA.__init__].  The identifier is spliced into the text of
    [start_block] before compilation.  The tree below is the compiled
    pattern when every character of the identifier is an ordinary one in
    a pattern ([ordinary_text]), as in the identifiers [create_vuln] lets
    through: letters, digits, hyphens and possibly a final newline.  For
    an identifier with a special character the compiled pattern is
    another one, or the compilation fails: of those the tree says
    nothing. *)
Definition DSA_base_url : string :=
  "https://salsa.debian.org/security-tracker-team/" +:+
  "security-tracker/raw/master/data/DSA/list".

(** <<^\[.+\] {vuln_id}>> *)
Definition DSA_start_block (vuln_id : string) : pattern :=
  Pattern false
    (Re.cats [Bol; Lit "["; Plus Any; Lit "]"; Lit " "; Re.lit vuln_id]).

(** <<^\s+\[>> *)
Definition DSA_end_block : pattern :=
  Pattern false (Re.cats [Bol; Plus Space; Lit "["]).

(** <<^\s+\{(.+)\}>> *)
Definition DSA_search_params : pattern :=
  Pattern false
    (Re.cats [Bol; Plus Space; Lit "{"; Group 1 (Plus Any); Lit "}"]).

Definition DSA (vuln_id : string) (packages : pyval) : object :=
  let base_url := DSA_base_url in
  let start_block := DSA_start_block vuln_id in
  let end_block := DSA_end_block in
  let search_params := DSA_search_params in
  let as_per_block := true in
  let parse_mode := "plain" in
  Object DSA_cls
    (UnparsableVulnerability_init ∅ vuln_id packages base_url parse_mode PNone
       (<["as_per_block" := PBool as_per_block]>
        (<["search_params" := PPattern search_params]>
         (<["end_block" := PPattern end_block]>
          (<["start_block" := PPattern start_block]> ∅))))).

(** [RHSA.__init__]; a key pattern of [key_list] is kept as its syntax
    tree, [re.match] compiling it without flags. *)
Definition RHSA_base_url (vuln_id : string) : string :=
  "https://access.redhat.com/labs/securitydataapi/" +:+
  "cve.json?advisory=" +:+ vuln_id.

Definition RHSA_key_list : list regex := [Re.lit "CVE"].

Definition RHSA (vuln_id : string) (packages : pyval) : object :=
  let base_url := RHSA_base_url vuln_id in
  let key_list := PList (List.map (fun r => PPattern (Pattern false r)) RHSA_key_list) in
  let parse_mode := "json" in
  Object RHSA_cls
    (UnparsableVulnerability_init ∅ vuln_id packages base_url parse_mode PNone
       (<["key_list" := key_list]> ∅)).

(** The three identifier patterns of [create_vuln], all used with [re.I]. *)

(** <<^CVE\-\d+\-\d+$>> *)
Definition CVE_pattern : regex :=
  Re.cats [Bol; Re.lit "CVE"; Lit "-"; Plus Digit; Lit "-"; Plus Digit; Eol].

(** <<^DSA\-\d{3,}\-\d+$>> *)
Definition DSA_pattern : regex :=
  Re.cats [Bol; Re.lit "DSA"; Lit "-"; Re.at_least3 Digit; Lit "-"; Plus Digit; Eol].

(** <<^RHSA:\d+\-\d+$>> *)
Definition RHSA_pattern : regex :=
  Re.cats [Bol; Re.lit "RHSA:"; Plus Digit; Lit "-"; Plus Digit; Eol].

(** [create_vuln]; the result [None] is Python's [None]. *)
Definition create_vuln (vuln_id : string) (packages : pyval) : option object :=
  if Re.matches true CVE_pattern vuln_id then Some (CVE vuln_id packages)
  else if Re.matches true DSA_pattern vuln_id then Some (DSA vuln_id packages)
  else if Re.matches true RHSA_pattern vuln_id then Some (RHSA vuln_id packages)
  else None.

(** [pattern.match(s)] and [pattern.search(s)] of a compiled pattern. *)
Definition pattern_match (p : pattern) (s : string) : option (list (option string)) :=
  Re.match_ (ignorecase p) (tree p) s.

Definition pattern_search (p : pattern) (s : string) : option (list (option string)) :=
  Re.search (ignorecase p) (tree p) s.

(** [UnparsableVulnerability.translate], [UnparsableVulnerability.clean_data]:
    the body is [pass]; the call returns [None] and leaves the object as
    it is. *)
Definition translate (self : object) : result (object * pyval) :=
  Return (self, PNone).

Definition clean_data (self : object) : result (object * pyval) :=
  Return (self, PNone).

(** [Context] *)
Record Context : Type := MkContext {
  input_vuln : option object;
  runnable_vulns : list object
}.

Definition Context_init (vuln : option object) : Context :=
  MkContext vuln [].

(** [Context.translate_vuln], [Context.run_crawlers]: the body is [pass]. *)
Definition translate_vuln (self : Context) : result (Context * pyval) :=
  Return (self, PNone).

Definition run_crawlers (self : Context) : result (Context * pyval) :=
  Return (self, PNone).

(** ** utils.py *)

(** A record yielded by the block extractor: [list(m.groups())]. *)
Definition record : Type := list (option string).

(** The loop of [parse_file_by_block] over the lines the opened file
    yields, [block_found] being the loop's flag.  The result is what the
    generator yields when it is consumed to its end. *)
Fixpoint parse_lines (start_block end_block search_params : pattern)
    (block_found : bool) (f : list string) : list record :=
  match f with
  | [] => []
  | line :: f' =>
      let line := PyStr.rstrip line in
      if block_found then
        match pattern_match end_block line with
        | Some _ => []                                             (* break *)
        | None =>
            match pattern_search search_params line with
            | Some search_results =>
                search_results
                  :: parse_lines start_block end_block search_params true f'
            | None => parse_lines start_block end_block search_params true f'
            end
        end
      else
        match pattern_match start_block line with
        | Some _ => parse_lines start_block end_block search_params true f'
        | None => parse_lines start_block end_block search_params false f'
        end
  end.

(** [parse_file_by_block]; [f] is the sequence of lines of the file named
    [file_name]. *)
Definition parse_file_by_block (f : list string)
    (start_block end_block search_params : pattern) : list record :=
  parse_lines start_block end_block search_params false f.

(** [parse_dict].  A value without [keys()] raises [AttributeError]; an
    exception of a nested call leaves the loop. *)
Definition no_keys : exn :=
  Exn "AttributeError" "object has no attribute 'keys'".

Fixpoint parse_dict (dictionary : pyval) (key_list : list regex) (get_key : bool)
    {struct key_list} : result (list pyval) :=
  match key_list with
  | [] => Return []
  | key_pattern :: key_list' =>
      match dictionary with
      | PDict items =>
          (fix loop (items : list (string * pyval)) (search_results : list pyval)
             : result (list pyval) :=
             match items with
             | [] => Return search_results
             | (key, value) :: items' =>
                 if negb (Re.matches false key_pattern key)
                 then loop items' search_results                     (* continue *)
                 else
                   match key_list' with
                   | [] =>
                       loop items'
                         (search_results ++ [if get_key then PStr key else value])%list
                   | _ :: _ =>
                       match parse_dict value key_list' get_key with
                       | Return found => loop items' (search_results ++ found)%list
                       | Raise e => Raise e
                       end
                   end
             end) items []
      | _ => Raise no_keys
      end
  end.

(** A response: the locator it was fetched from and its body. *)
Record response : Type := Response {
  url : string;
  body : string
}.

Section JsonResponse.

(** The two library calls of [json_response_to_xml]. *)
Variable json_loads : string -> result pyval.
Variable dicttoxml : pyval -> result string.

Definition json_response_to_xml (r : response) : result response :=
  match json_loads (body r) with
  | Raise e => Raise e
  | Return dictionary =>
      match dicttoxml dictionary with
      | Raise e => Raise e
      | Return xml => Return (Response (url r) xml)           (* replace(body=xml) *)
      end
  end.

End JsonResponse.

(** ** A decoder for a fragment of JSON

    [json.loads] belongs to Python's library.  The statements about
    [json_response_to_xml] hold for any decoder; the examples run this
    one, which reads objects, arrays, strings without escapes, integers,
    [true], [false] and [null], and raises [JSONDecodeError] otherwise. *)

Module Json.

Definition quote : ascii := ascii_of_nat 34.

Definition is_ws (c : ascii) : bool :=
  let n := PyChar.code c in
  (n =? 32)%nat || (n =? 9)%nat || (n =? 10)%nat || (n =? 13)%nat.

Fixpoint skip_ws (s : string) : string :=
  match s with
  | String c s' => if is_ws c then skip_ws s' else s
  | EmptyString => EmptyString
  end.

(** The characters of a string up to its closing quote. *)
Fixpoint string_body (s : string) : option (string * string) :=
  match s with
  | EmptyString => None
  | String c s' =>
      if Ascii.eqb c quote then Some (EmptyString, s')
      else if Ascii.eqb c "\" || (PyChar.code c <? 32)%nat then None
      else match string_body s' with
           | Some (t, r) => Some (String c t, r)
           | None => None
           end
  end.

Fixpoint digits (s : string) (acc : Z) : Z * string :=
  match s with
  | String c s' =>
      if PyChar.isdecimal c
      then digits s' (10 * acc + Z.of_nat (PyChar.code c - 48))%Z
      else (acc, s)
  | EmptyString => (acc, s)
  end.

(** An integer without sign: a lone [0], or digits starting with 1-9. *)
Definition natural (s : string) : option (Z * string) :=
  match s with
  | String c s' =>
      if Ascii.eqb c "0" then Some (0%Z, s')
      else if PyChar.isdecimal c then Some (digits s 0%Z)
      else None
  | EmptyString => None
  end.

Definition keyword (w : string) (v : pyval) (s : string) : option (pyval * string) :=
  if PyStr.startswith w s
  then Some (v, String.substring (String.length w)
                  (String.length s - String.length w) s)
  else None.

Section Containers.

Variable value : string -> option (pyval * string).

(** The elements of an array after its opening bracket. *)
Fixpoint elements (fuel : nat) (s : string) (acc : list pyval)
    : option (pyval * string) :=
  match fuel with
  | O => None
  | S fuel' =>
      match value s with
      | Some (v, s1) =>
          match skip_ws s1 with
          | String c s2 =>
              if Ascii.eqb c "," then elements fuel' s2 (acc ++ [v])%list
              else if Ascii.eqb c "]" then Some (PList (acc ++ [v])%list, s2)
              else None
          | EmptyString => None
          end
      | None => None
      end
  end.

(** The members of an object after its opening brace. *)
Fixpoint members (fuel : nat) (s : string) (acc : list (string * pyval))
    : option (pyval * string) :=
  match fuel with
  | O => None
  | S fuel' =>
      match skip_ws s with
      | String q s1 =>
          if Ascii.eqb q quote then
            match string_body s1 with
            | Some (key, s2) =>
                match skip_ws s2 with
                | String c s3 =>
                    if Ascii.eqb c ":" then
                      match value s3 with
                      | Some (v, s4) =>
                          match skip_ws s4 with
                          | String d s5 =>
                              if Ascii.eqb d ","
                              then members fuel' s5 (acc ++ [(key, v)])%list
                              else if Ascii.eqb d "}"
                              then Some (PDict (acc ++ [(key, v)])%list, s5)
                              else None
                          | EmptyString => None
                          end
                      | None => None
                      end
                    else None
                | EmptyString => None
                end
            | None => None
            end
          else None
      | EmptyString => None
      end
  end.

End Containers.

Fixpoint value (fuel : nat) (s : string) : option (pyval * string) :=
  match fuel with
  | O => None
  | S fuel' =>
      match skip_ws s with
      | String c s1 =>
          if Ascii.eqb c "{" then
            match skip_ws s1 with
            | String d s2 =>
                if Ascii.eqb d "}" then Some (PDict [], s2)
                else members (value fuel') (String.length s1) s1 []
            | EmptyString => None
            end
          else if Ascii.eqb c "[" then
            match skip_ws s1 with
            | String d s2 =>
                if Ascii.eqb d "]" then Some (PList [], s2)
                else elements (value fuel') (String.length s1) s1 []
            | EmptyString => None
            end
          else if Ascii.eqb c quote then
            match string_body s1 with
            | Some (t, r) => Some (PStr t, r)
            | None => None
            end
          else if Ascii.eqb c "-" then
            match natural s1 with
            | Some (z, r) => Some (PInt (- z), r)
            | None => None
            end
          else if PyChar.isdecimal c then
            match natural (String c s1) with
            | Some (z, r) => Some (PInt z, r)
            | None => None
            end
          else
            match keyword "null" PNone (String c s1) with
            | Some r => Some r
            | None =>
                match keyword "true" (PBool true) (String c s1) with
                | Some r => Some r
                | None => keyword "false" (PBool false) (String c s1)
                end
            end
      | EmptyString => None
      end
  end.

Definition loads (s : string) : result pyval :=
  match value (S (String.length s)) s with
  | Some (v, r) =>
      match skip_ws r with
      | EmptyString => Return v
      | String _ _ => Raise (Exn "JSONDecodeError" "Extra data")
      end
  | None => Raise (Exn "JSONDecodeError" "Expecting value")
  end.

End Json.

(** ** The design document's vocabulary *)

(** The block extractor as the design document describes it, with its
    [as_per_block] option: outside a block a line matching [start_block]
    opens one; inside, a line matching [end_block] closes it, any other
    line matching [search_params] gives a record.  After a block is
    closed the scan stops when [as_per_block] is false and looks for the
    next [start_block] match when it is true. *)
Fixpoint design_block_extractor (as_per_block : bool)
    (start_block end_block search_params : pattern)
    (inside : bool) (lines : list string) : list record :=
  match lines with
  | [] => []
  | line :: lines' =>
      let line := PyStr.rstrip line in
      if inside then
        match pattern_match end_block line with
        | Some _ =>
            if as_per_block
            then design_block_extractor as_per_block
                   start_block end_block search_params false lines'
            else []
        | None =>
            match pattern_search search_params line with
            | Some groups =>
                groups :: design_block_extractor as_per_block
                            start_block end_block search_params true lines'
            | None => design_block_extractor as_per_block
                        start_block end_block search_params true lines'
            end
        end
      else
        match pattern_match start_block line with
        | Some _ => design_block_extractor as_per_block
                      start_block end_block search_params true lines'
        | None => design_block_extractor as_per_block
                    start_block end_block search_params false lines'
        end
  end.

(** Whether a line, once stripped, opens or closes a block. *)
Definition opens (start_block : pattern) (line : string) : bool :=
  match pattern_match start_block (PyStr.rstrip line) with
  | Some _ => true
  | None => false
  end.

Definition closes (end_block : pattern) (line : string) : bool :=
  match pattern_match end_block (PyStr.rstrip line) with
  | Some _ => true
  | None => false
  end.

(** The records of the lines of one block, in order. *)
Fixpoint block_records (search_params : pattern) (lines : list string)
    : list record :=
  match lines with
  | [] => []
  | line :: lines' =>
      match pattern_search search_params (PyStr.rstrip line) with
      | Some groups => groups :: block_records search_params lines'
      | None => block_records search_params lines'
      end
  end.

(** The three kinds of identifier the classifier supports, with the
    pattern and the class of each. *)
Inductive kind : Type := CVE_kind | DSA_kind | RHSA_kind.

Definition kind_pattern (k : kind) : regex :=
  match k with
  | CVE_kind => CVE_pattern
  | DSA_kind => DSA_pattern
  | RHSA_kind => RHSA_pattern
  end.

Definition kind_class (k : kind) : pyclass :=
  match k with
  | CVE_kind => CVE_cls
  | DSA_kind => DSA_cls
  | RHSA_kind => RHSA_cls
  end.

Definition kind_letter (k : kind) : ascii :=
  match k with
  | CVE_kind => "c"
  | DSA_kind => "d"
  | RHSA_kind => "r"
  end.

Definition kind_object (k : kind) : string -> pyval -> object :=
  match k with
  | CVE_kind => CVE
  | DSA_kind => DSA
  | RHSA_kind => RHSA
  end.

(** Direct variants are the vulnerabilities the default spider can use;
    indirect ones are the instances of [UnparsableVulnerability]. *)
Definition is_direct (o : object) : bool :=
  isinstance o Vulnerability_cls && negb (isinstance o UnparsableVulnerability_cls).

Definition is_indirect (o : object) : bool :=
  isinstance o UnparsableVulnerability_cls.

(** Whether a call ended with an exception of the class named [cls]. *)
Definition raises {A : Type} (cls : string) (r : result A) : bool :=
  match r with
  | Raise e => String.eqb (exn_class e) cls
  | Return _ => false
  end.

(** What [parse_dict] collects at a selected key of the last level. *)
Definition collected (get_key : bool) (kv : string * pyval) : pyval :=
  if get_key then PStr kv.1 else kv.2.

(** The keys of a dictionary a key pattern selects: those [re.match]
    accepts. *)
Definition selected (key_pattern : regex) (items : list (string * pyval))
    : list (string * pyval) :=
  List.filter (fun kv => Re.matches false key_pattern kv.1) items.

(** The results of the nested calls put together: the lists in order, or
    the first exception. *)
Fixpoint extend_all (rs : list (result (list pyval))) : result (list pyval) :=
  match rs with
  | [] => Return []
  | Raise e :: _ => Raise e
  | Return found :: rs' =>
      match extend_all rs' with
      | Return more => Return (found ++ more)%list
      | Raise e => Raise e
      end
  end.

(** ** Fixtures *)

Definition nl : string := String PyChar.newline "".
Definition tab : string := String (ascii_of_nat 9) "".
Definition dq : string := String Json.quote "".

(** Two entries of the advisory list that both match the start pattern of
    [DSA-4321-1], each closed by a release line. *)
Definition two_blocks : list string :=
  [ "[03 Jan 2021] DSA-4321-1 pkgname - security update" +:+ nl;
    tab +:+ "{CVE-2021-0001}" +:+ nl;
    tab +:+ "[buster] - pkgname 1.0-1+deb10u1" +:+ nl;
    "[05 Jan 2021] DSA-4321-1 pkgname - regression update" +:+ nl;
    tab +:+ "{CVE-2021-0002}" +:+ nl;
    tab +:+ "[buster] - pkgname 1.0-1+deb10u2" +:+ nl ].

(** A truncated JSON document. *)
Definition truncated_json : string := "{" +:+ dq +:+ "CVE" +:+ dq +:+ ": ".

(** [{"CVE": "a", "CVE-2020-1234": "b", "bugzilla": "c"}] *)
Definition advisory_dict : pyval :=
  PDict [ ("CVE", PStr "a"); ("CVE-2020-1234", PStr "b"); ("bugzilla", PStr "c") ].

(** ** More of utils.py *)

(** [match_all] and [match_any]; the patterns are given by their syntax
    trees, [re.search] compiling them without flags. *)
Definition match_all (s : string) (patterns : list regex) : bool :=
  if forallb (fun x => match Re.search false x s with
                       | Some _ => true
                       | None => false
                       end) patterns
  then true else false.

Definition match_any (s : string) (patterns : list regex) : bool :=
  if existsb (fun x => match Re.search false x s with
                       | Some _ => true
                       | None => false
                       end) patterns
  then true else false.

Module PyText.

(** [s.find(t)]: the lowest index where [t] occurs in [s], or -1. *)
Fixpoint find (t s : string) : Z :=
  if PyStr.startswith t s then 0%Z
  else
    match s with
    | EmptyString => (-1)%Z
    | String _ s' =>
        let i := find t s' in
        if Z.eqb i (-1) then (-1)%Z else (i + 1)%Z
    end.

(** [s.lower()] *)
Fixpoint lower (s : string) : string :=
  match s with
  | EmptyString => EmptyString
  | String c s' => String (PyChar.lower c) (lower s')
  end.

(** Whether every character of [s] satisfies [p]. *)
Fixpoint all (p : ascii -> bool) (s : string) : bool :=
  match s with
  | EmptyString => true
  | String c s' => p c && all p s'
  end.

(** [s.endswith('/')] *)
Fixpoint ends_with_sep (s : string) : bool :=
  match s with
  | EmptyString => false
  | String c EmptyString => Ascii.eqb c "/"
  | String _ s' => ends_with_sep s'
  end.

(** [s.endswith(t)] *)
Fixpoint endswith (t s : string) : bool :=
  String.eqb t s ||
  match s with
  | EmptyString => false
  | String _ s' => endswith t s'
  end.

End PyText.

(** [os.path.join(a, b)] of [posixpath]. *)
Definition path_join (a b : string) : string :=
  if PyStr.startswith "/" b then b
  else if String.eqb a "" || PyText.ends_with_sep a then a +:+ b
  else a +:+ "/" +:+ b.

(** [find_in_directory].  The file system is seen through the listing of
    each directory ([os.listdir]); a path that has no listing is no
    directory ([os.path.isdir] is false).  The comparison [is not -1] is
    the comparison [!= -1] on the small integers [find] returns.  The
    result is what the generator yields when consumed to its end. *)
Fixpoint find_in_listing (directory file_name : string) (listing : list string)
    : list string :=
  match listing with
  | [] => []
  | f :: listing' =>
      if negb (Z.eqb (PyText.find file_name f) (-1))
      then path_join directory f :: find_in_listing directory file_name listing'
      else find_in_listing directory file_name listing'
  end.

Definition find_in_directory (listdir : gmap string (list string))
    (directory file_name : string) : list string :=
  match listdir !! directory with
  | None => []                                                    (* return *)
  | Some listing => find_in_listing directory file_name listing
  end.



(** Which values are dictionaries, which are strings. *)
Definition is_dict (v : pyval) : bool :=
  match v with PDict _ => true | _ => false end.

Definition is_str (v : pyval) : bool :=
  match v with PStr _ => true | _ => false end.

(** The value reached from [d] by a path of keys, each one a key of the
    dictionary at its level that the pattern of that level accepts. *)
Fixpoint reached (key_list : list regex) (keys : list string) (d v : pyval) : Prop :=
  match keys with
  | [] => v = d
  | key :: keys' =>
      match key_list, d with
      | key_pattern :: key_list', PDict items =>
          exists x : pyval,
            In (key, x) items /\
            Re.matches false key_pattern key = true /\
            reached key_list' keys' x v
      | _, _ => False
      end
  end.

(** The text of a sequence of code points when all of them lie below
    256, the range of the texts of this development; [None] beyond. *)
Fixpoint text_of_code_points (cps : list N) : option string :=
  match cps with
  | [] => Some EmptyString
  | n :: cps' =>
      if N.ltb n 256
      then match text_of_code_points cps' with
           | Some s => Some (String (ascii_of_N n) s)
           | None => None
           end
      else None
  end.

(** Two outcomes of the same shape: lists of one length, or one
    exception. *)
Definition same_shape (r1 r2 : result (list pyval)) : Prop :=
  match r1, r2 with
  | Return a, Return b => length a = length b
  | Raise e, Raise e' => e = e'
  | _, _ => False
  end.

(** The keyword arguments [DSA.__init__] and [RHSA.__init__] pass on. *)
Definition DSA_kwargs (vuln_id : string) : gmap string pyval :=
  <["as_per_block" := PBool true]>
    (<["search_params" := PPattern DSA_search_params]>
       (<["end_block" := PPattern DSA_end_block]>
          (<["start_block" := PPattern (DSA_start_block vuln_id)]> ∅))).

Definition RHSA_kwargs : gmap string pyval :=
  <["key_list" :=
      PList (List.map (fun r => PPattern (Pattern false r)) RHSA_key_list)]> ∅.

(** ** Greedy repetition of a character class

    What the matcher does on [c+] for a pattern [c] of one character,
    written over the text alone: the longest run first, then shorter
    ones, [k] being tried on what is left. *)

Module Greedy.

Section Run.

Context {A : Type}.
Variable p : ascii -> bool.
Variable k : string -> option A.

Fixpoint star (s : string) : option A :=
  match s with
  | String c s' =>
      if p c then
        match star s' with
        | Some x => Some x
        | None => k s
        end
      else k s
  | EmptyString => k s
  end.

Definition plus (s : string) : option A :=
  match s with
  | String c s' => if p c then star s' else None
  | EmptyString => None
  end.

End Run.

(** The test a pattern of one character makes. *)
Definition class (ignorecase : bool) (r : regex) : option (ascii -> bool) :=
  match r with
  | Lit a => Some (Re.lit_test ignorecase a)
  | Any => Some (fun c => negb (Ascii.eqb c PyChar.newline))
  | Digit => Some PyChar.isdecimal
  | Space => Some PyChar.isspace
  | _ => None
  end.

End Greedy.

(** Two numbers with a hyphen between them, the first of at least
    [min_digits] digits, possibly followed by a final newline. *)
Definition number_pair (min_digits : nat) (s : string) : Prop :=
  exists a b t : string,
    s = a +:+ "-" +:+ b +:+ t /\
    PyText.all PyChar.isdecimal a = true /\
    min_digits <= String.length a /\
    PyText.all PyChar.isdecimal b = true /\
    1 <= String.length b /\
    (t = "" \/ t = String PyChar.newline "").

(** The identifiers of one kind: a prefix that is [prefix] up to letter
    case, then a pair of numbers. *)
Definition advisory_form (prefix : string) (min_digits : nat) (s : string) : Prop :=
  exists p rest : string,
    s = p +:+ rest /\
    PyText.lower p = prefix /\
    number_pair min_digits rest.

Definition kind_prefix (k : kind) : string :=
  match k with
  | CVE_kind => "cve-"
  | DSA_kind => "dsa-"
  | RHSA_kind => "rhsa:"
  end.

Definition kind_min_digits (k : kind) : nat :=
  match k with
  | DSA_kind => 3
  | _ => 1
  end.

(** ** The functions of utils.py that act on files

    The calls into [os], [urllib] and the file object are parameters; a
    call takes the state of the world and gives the new state with what
    it returns or raises. *)

(** [os.path.split(p)[0]] of [posixpath]: the text up to the last slash,
    without its trailing slashes unless it is made of slashes only. *)
Fixpoint up_to_last_sep (p : string) : string :=
  match p with
  | EmptyString => EmptyString
  | String c p' =>
      if PyStr.contains "/" p' then String c (up_to_last_sep p')
      else if Ascii.eqb c "/" then String c EmptyString
      else EmptyString
  end.

Fixpoint rstrip_sep (s : string) : string :=
  match s with
  | EmptyString => EmptyString
  | String c s' =>
      match rstrip_sep s' with
      | EmptyString => if Ascii.eqb c "/" then EmptyString else String c EmptyString
      | t => String c t
      end
  end.

Definition path_split_head (p : string) : string :=
  let head := up_to_last_sep p in
  if negb (String.eqb head "") && negb (PyText.all (fun c => Ascii.eqb c "/") head)
  then rstrip_sep head else head.

Section OS.

Variable world : Type.
Variable isfile : string -> world -> bool.                      (* os.path.isfile *)
Variable isdir : string -> world -> bool.                       (* os.path.isdir *)
Variable makedirs : string -> world -> world * result unit.     (* os.makedirs *)
Variable urlretrieve : string -> string -> world -> world * result unit.
Variable open_write : string -> world -> world * result unit.   (* open(p, "w") *)
Variable write : string -> string -> world -> world * result unit.  (* f.write *)
Variable close : string -> world -> world.                      (* f.close *)
Variable decode_utf8 : string -> result string.                 (* bytes.decode *)

(** [download_item] *)
Definition download_item (url save_as : string) (overwrite : bool)
    (w : world) : world * result unit :=
  if isfile save_as w && negb overwrite then (w, Return tt)
  else
    let parent_dir := path_split_head save_as in
    let '(w1, made) :=
      if negb (isdir parent_dir w) then makedirs parent_dir w else (w, Return tt) in
    match made with
    | Raise e => (w1, Raise e)
    | Return _ => urlretrieve url save_as w1
    end.

(** [write_response_to_file] *)
Definition write_response_to_file (r : response) (save_as : string)
    (overwrite : bool) (w : world) : world * result unit :=
  if isfile save_as w && negb overwrite then (w, Return tt)
  else
    let body := body r in
    match open_write save_as w with
    | (w1, Raise e) => (w1, Raise e)
    | (w1, Return _) =>
        match decode_utf8 body with
        | Raise e => (close save_as w1, Raise e)              (* finally *)
        | Return text =>
            let '(w2, written) := write save_as text w1 in
            (close save_as w2, written)                         (* finally *)
        end
    end.

End OS.

(** A small world for the examples: the files by path with their
    content; every path but the empty one is a directory. *)
Module Toy.

Definition isfile (p : string) (w : gmap string string) : bool :=
  bool_decide (is_Some (w !! p)).

Definition isdir (p : string) (w : gmap string string) : bool :=
  negb (String.eqb p "").

Definition makedirs (p : string) (w : gmap string string)
    : gmap string string * result unit :=
  if String.eqb p "" then (w, Raise (Exn "FileNotFoundError" "No such file or directory"))
  else (w, Return tt).

Definition urlretrieve (url save_as : string) (w : gmap string string)
    : gmap string string * result unit :=
  (<[save_as := url]> w, Return tt).

Definition open_write (p : string) (w : gmap string string)
    : gmap string string * result unit :=
  (<[p := ""]> w, Return tt).

Definition write (p text : string) (w : gmap string string)
    : gmap string string * result unit :=
  (<[p := text]> w, Return tt).

Definition close (p : string) (w : gmap string string) : gmap string string := w.

(** A decoder that refuses every character above 127. *)
Definition decode_utf8 (b : string) : result string :=
  if PyText.all (fun c => Nat.ltb (PyChar.code c) 128) b then Return b
  else Raise (Exn "UnicodeDecodeError" "invalid start byte").

End Toy.

(** * Properties *)

(** ** Strings and patterns *)

Lemma startswith_refl (t : string) : PyStr.startswith t t = true.
Proof.
  induction t as [|c t IH]; simpl; [reflexivity|].
  rewrite Ascii.eqb_refl. exact IH.
Qed.

Lemma contains_refl (t : string) : PyStr.contains t t = true.
Proof.
  destruct t; simpl; [reflexivity|].
  rewrite Ascii.eqb_refl, startswith_refl. reflexivity.
Qed.

Lemma contains_append (p t : string) : PyStr.contains t (p +:+ t) = true.
Proof.
  induction p as [|c p IH]; simpl.
  - apply contains_refl.
  - change (String.append p t) with (p +:+ t). rewrite IH. apply orb_true_r.
Qed.

(** A pattern that opens with [^] and an ordinary character decides on
    the first character of the subject. *)
Lemma matches_head_eq (a : ascii) (r1 r2 : regex) (s : string) :
  Re.matches true (Cat Bol (Cat (Cat (Lit a) r1) r2)) s = true ->
  exists c s', s = String c s' /\ PyChar.lower c = PyChar.lower a.
Proof.
  destruct s as [|c s']; [discriminate|].
  unfold Re.matches, Re.match_. cbn [Re.run Re.at_start].
  unfold Re.char_step at 1. cbn [Re.rest Re.lit_test].
  destruct (Ascii.eqb (PyChar.lower c) (PyChar.lower a)) eqn:E; [|discriminate].
  intros _. exists c, s'. split; [reflexivity|]. now apply Ascii.eqb_eq.
Qed.

Lemma matches_head_ne (a : ascii) (r1 r2 : regex) (c : ascii) (s' : string) :
  PyChar.lower c <> PyChar.lower a ->
  Re.matches true (Cat Bol (Cat (Cat (Lit a) r1) r2)) (String c s') = false.
Proof.
  intros Hne. unfold Re.matches, Re.match_. cbn [Re.run Re.at_start].
  unfold Re.char_step at 1. cbn [Re.rest Re.lit_test].
  destruct (Ascii.eqb (PyChar.lower c) (PyChar.lower a)) eqn:E; [|reflexivity].
  apply Ascii.eqb_eq in E. contradiction.
Qed.

Lemma kind_head (k : kind) (s : string) :
  Re.matches true (kind_pattern k) s = true ->
  exists c s', s = String c s' /\ PyChar.lower c = kind_letter k.
Proof.
  destruct k; intros H.
  - exact (matches_head_eq "C" _ _ s H).
  - exact (matches_head_eq "D" _ _ s H).
  - exact (matches_head_eq "R" _ _ s H).
Qed.

Lemma kind_head_ne (k : kind) (c : ascii) (s' : string) :
  PyChar.lower c <> kind_letter k ->
  Re.matches true (kind_pattern k) (String c s') = false.
Proof.
  destruct k; intros H.
  - exact (matches_head_ne "C" _ _ c s' H).
  - exact (matches_head_ne "D" _ _ c s' H).
  - exact (matches_head_ne "R" _ _ c s' H).
Qed.

(** The three patterns exclude each other. *)
Lemma kind_exclusive (k k' : kind) (s : string) :
  Re.matches true (kind_pattern k) s = true ->
  k <> k' ->
  Re.matches true (kind_pattern k') s = false.
Proof.
  intros Hm Hne. destruct (kind_head k s Hm) as (c & s' & -> & Hc).
  apply kind_head_ne. rewrite Hc.
  destruct k, k'; try congruence; discriminate.
Qed.

(** [create_vuln] builds the object of the kind whose pattern matches. *)
Lemma create_vuln_kind (k : kind) (vuln_id : string) (packages : pyval) :
  Re.matches true (kind_pattern k) vuln_id = true ->
  create_vuln vuln_id packages = Some (kind_object k vuln_id packages).
Proof.
  intros Hm. unfold create_vuln.
  destruct k.
  - change CVE_pattern with (kind_pattern CVE_kind). now rewrite Hm.
  - change CVE_pattern with (kind_pattern CVE_kind).
    change DSA_pattern with (kind_pattern DSA_kind).
    rewrite (kind_exclusive DSA_kind CVE_kind _ Hm) by discriminate.
    now rewrite Hm.
  - change CVE_pattern with (kind_pattern CVE_kind).
    change DSA_pattern with (kind_pattern DSA_kind).
    change RHSA_pattern with (kind_pattern RHSA_kind).
    rewrite (kind_exclusive RHSA_kind CVE_kind _ Hm) by discriminate.
    rewrite (kind_exclusive RHSA_kind DSA_kind _ Hm) by discriminate.
    now rewrite Hm.
Qed.

(** ** The identifier classifier *)


(** C3.  An identifier matching the CVE pattern, such as
    [CVE-2020-1234], is classified as a direct vulnerability whose
    entrypoints are exactly three URLs, of the NVD, of MITRE and of the
    Debian security tracker in this order, and each of the three has the
    identifier as it was given as a substring. *)
Theorem create_vuln_CVE_entrypoints (vuln_id : string) (packages : pyval) :
  Re.matches true CVE_pattern vuln_id = true ->
  exists v : object,
    create_vuln vuln_id packages = Some v /\
    class_of v = CVE_cls /\
    is_direct v = true /\
    getattr v "entrypoint_urls" =
      Some (PList
        [ PStr ("https://nvd.nist.gov/vuln/detail/" +:+ vuln_id);
          PStr ("https://cve.mitre.org/cgi-bin/cvename.cgi?name=" +:+ vuln_id);
          PStr ("https://security-tracker.debian.org/tracker/" +:+ vuln_id) ]) /\
    PyStr.contains vuln_id
      ("https://nvd.nist.gov/vuln/detail/" +:+ vuln_id) = true /\
    PyStr.contains vuln_id
      ("https://cve.mitre.org/cgi-bin/cvename.cgi?name=" +:+ vuln_id) = true /\
    PyStr.contains vuln_id
      ("https://security-tracker.debian.org/tracker/" +:+ vuln_id) = true.
Proof.
  intros Hm. exists (CVE vuln_id packages).
  split; [exact (create_vuln_kind CVE_kind vuln_id packages Hm)|].
  repeat split; apply contains_append.
Qed.

Lemma create_vuln_CVE_entrypoints_witness :
  Re.matches true CVE_pattern "CVE-2020-1234" = true /\
  exists v : object,
    create_vuln "CVE-2020-1234" PNone = Some v /\
    class_of v = CVE_cls /\
    is_direct v = true /\
    getattr v "entrypoint_urls" =
      Some (PList
        [ PStr "https://nvd.nist.gov/vuln/detail/CVE-2020-1234";
          PStr "https://cve.mitre.org/cgi-bin/cvename.cgi?name=CVE-2020-1234";
          PStr "https://security-tracker.debian.org/tracker/CVE-2020-1234" ]) /\
    PyStr.contains "CVE-2020-1234"
      "https://nvd.nist.gov/vuln/detail/CVE-2020-1234" = true /\
    PyStr.contains "CVE-2020-1234"
      "https://cve.mitre.org/cgi-bin/cvename.cgi?name=CVE-2020-1234" = true /\
    PyStr.contains "CVE-2020-1234"
      "https://security-tracker.debian.org/tracker/CVE-2020-1234" = true.
Proof.
  split; [reflexivity|].
  apply (create_vuln_CVE_entrypoints "CVE-2020-1234" PNone). reflexivity.
Defined.

(** C4.  An identifier matching none of the three patterns is answered
    with [None], the value by which the classifier reports an identifier
    it does not recognise; [create_vuln] is a total function of the
    identifier, no exception leaves it. *)
Theorem create_vuln_unrecognized (vuln_id : string) (packages : pyval) :
  Re.matches true CVE_pattern vuln_id = false ->
  Re.matches true DSA_pattern vuln_id = false ->
  Re.matches true RHSA_pattern vuln_id = false ->
  create_vuln vuln_id packages = None.
Proof.
  intros Hc Hd Hr. unfold create_vuln. now rewrite Hc, Hd, Hr.
Qed.

Lemma create_vuln_unrecognized_witness :
  Re.matches true CVE_pattern "USN-4321-1" = false /\
  Re.matches true DSA_pattern "USN-4321-1" = false /\
  Re.matches true RHSA_pattern "USN-4321-1" = false /\
  create_vuln "USN-4321-1" PNone = None.
Proof.
  split; [reflexivity|]. split; [reflexivity|]. split; [reflexivity|].
  apply (create_vuln_unrecognized "USN-4321-1" PNone); reflexivity.
Defined.

(** Conversely, [None] is returned for no other identifier. *)
Lemma create_vuln_None_inv (vuln_id : string) (packages : pyval) :
  create_vuln vuln_id packages = None ->
  forall k, Re.matches true (kind_pattern k) vuln_id = false.
Proof.
  unfold create_vuln. intros H k.
  destruct (Re.matches true CVE_pattern vuln_id) eqn:Hc; [discriminate|].
  destruct (Re.matches true DSA_pattern vuln_id) eqn:Hd; [discriminate|].
  destruct (Re.matches true RHSA_pattern vuln_id) eqn:Hr; [discriminate|].
  destruct k; assumption.
Qed.

(** ** The block extractor *)

Section BlockScan.

Variables start_block end_block search_params : pattern.

Local Abbreviation scan := (parse_lines start_block end_block search_params).

(** Lines that open no block are passed over. *)
Lemma parse_lines_before (pre f : list string) :
  Forall (fun l => opens start_block l = false) pre ->
  scan false (pre ++ f)%list = scan false f.
Proof.
  induction 1 as [|l pre Hl _ IH]; [reflexivity|].
  cbn [app parse_lines]. unfold opens in Hl.
  destruct (pattern_match start_block (PyStr.rstrip l)); [discriminate|].
  exact IH.
Qed.

Lemma parse_lines_open (l : string) (f : list string) :
  opens start_block l = true ->
  scan false (l :: f) = scan true f.
Proof.
  unfold opens. cbn [parse_lines].
  destruct (pattern_match start_block (PyStr.rstrip l)); [reflexivity|discriminate].
Qed.

(** Inside a block, the lines before the closing one give their records. *)
Lemma parse_lines_inside (body f : list string) :
  Forall (fun l => closes end_block l = false) body ->
  scan true (body ++ f)%list
  = (block_records search_params body ++ scan true f)%list.
Proof.
  induction 1 as [|l body Hl _ IH]; [reflexivity|].
  cbn [app parse_lines block_records]. unfold closes in Hl.
  destruct (pattern_match end_block (PyStr.rstrip l)); [discriminate|].
  destruct (pattern_search search_params (PyStr.rstrip l)); rewrite IH; reflexivity.
Qed.

(** The closing line ends the scan, whatever follows it. *)
Lemma parse_lines_close (l : string) (f : list string) :
  closes end_block l = true ->
  scan true (l :: f) = [].
Proof.
  unfold closes. cbn [parse_lines].
  destruct (pattern_match end_block (PyStr.rstrip l)); [reflexivity|discriminate].
Qed.

Lemma parse_file_by_block_closed (pre body rest : list string) (s e : string) :
  Forall (fun l => opens start_block l = false) pre ->
  opens start_block s = true ->
  Forall (fun l => closes end_block l = false) body ->
  closes end_block e = true ->
  parse_file_by_block (pre ++ s :: body ++ e :: rest)%list
    start_block end_block search_params
  = block_records search_params body.
Proof.
  intros Hpre Hs Hbody He. unfold parse_file_by_block.
  rewrite (parse_lines_before _ _ Hpre), (parse_lines_open _ _ Hs).
  rewrite (parse_lines_inside _ _ Hbody), (parse_lines_close _ _ He).
  apply app_nil_r.
Qed.

Lemma parse_file_by_block_open_ended (pre body : list string) (s : string) :
  Forall (fun l => opens start_block l = false) pre ->
  opens start_block s = true ->
  Forall (fun l => closes end_block l = false) body ->
  parse_file_by_block (pre ++ s :: body)%list
    start_block end_block search_params
  = block_records search_params body.
Proof.
  intros Hpre Hs Hbody. unfold parse_file_by_block.
  rewrite (parse_lines_before _ _ Hpre), (parse_lines_open _ _ Hs).
  rewrite <- (app_nil_r body) at 1.
  rewrite (parse_lines_inside _ _ Hbody). apply app_nil_r.
Qed.

(** The scan of the code is the design's scan with [as_per_block] off. *)
Lemma parse_lines_design_false (inside : bool) (f : list string) :
  scan inside f
  = design_block_extractor false start_block end_block search_params inside f.
Proof.
  revert inside. induction f as [|l f IH]; intros inside; [reflexivity|].
  cbn [parse_lines design_block_extractor]. destruct inside.
  - destruct (pattern_match end_block (PyStr.rstrip l)); [reflexivity|].
    destruct (pattern_search search_params (PyStr.rstrip l)); now rewrite IH.
  - destruct (pattern_match start_block (PyStr.rstrip l)); apply IH.
Qed.

End BlockScan.

(** C7.  On input with a first block that is closed and a second block
    after it, the extractor yields the records of the first block and
    nothing else: the scan ends at the line that closes the first block.
    When no line closes the first block the scan ends with the input, and
    the records are those of all the lines after the opening one.  This
    is the design's extractor with [as_per_block] false. *)
Theorem parse_file_by_block_first_block_only
    (start_block end_block search_params : pattern)
    (pre body1 tail : list string) (s1 : string) :
  Forall (fun l => opens start_block l = false) pre ->
  opens start_block s1 = true ->
  Forall (fun l => closes end_block l = false) body1 ->
  (tail = [] \/
   exists (e1 : string) (mid : list string) (s2 : string) (rest : list string),
     tail = (e1 :: mid ++ s2 :: rest)%list /\
     closes end_block e1 = true /\
     opens start_block s2 = true) ->
  parse_file_by_block (pre ++ s1 :: body1 ++ tail)%list
    start_block end_block search_params
  = block_records search_params body1 /\
  design_block_extractor false start_block end_block search_params false
    (pre ++ s1 :: body1 ++ tail)%list
  = block_records search_params body1.
Proof.
  intros Hpre Hs Hbody Htail.
  assert (parse_file_by_block (pre ++ s1 :: body1 ++ tail)%list
            start_block end_block search_params
          = block_records search_params body1) as Hcode.
  { destruct Htail as [-> | (e1 & mid & s2 & rest & -> & He & _)].
    - rewrite app_nil_r. now apply parse_file_by_block_open_ended.
    - now apply parse_file_by_block_closed. }
  split; [exact Hcode|].
  rewrite <- Hcode. symmetry. apply parse_lines_design_false.
Qed.

Lemma parse_file_by_block_first_block_only_witness :
  parse_file_by_block two_blocks
    (DSA_start_block "DSA-4321-1") DSA_end_block DSA_search_params
  = [[Some "CVE-2021-0001"]] /\
  design_block_extractor false
    (DSA_start_block "DSA-4321-1") DSA_end_block DSA_search_params false two_blocks
  = [[Some "CVE-2021-0001"]].
Proof.
  apply (parse_file_by_block_first_block_only
           (DSA_start_block "DSA-4321-1") DSA_end_block DSA_search_params
           []
           [tab +:+ "{CVE-2021-0001}" +:+ nl]
           [ tab +:+ "[buster] - pkgname 1.0-1+deb10u1" +:+ nl;
             "[05 Jan 2021] DSA-4321-1 pkgname - regression update" +:+ nl;
             tab +:+ "{CVE-2021-0002}" +:+ nl;
             tab +:+ "[buster] - pkgname 1.0-1+deb10u2" +:+ nl ]
           ("[03 Jan 2021] DSA-4321-1 pkgname - security update" +:+ nl)).
  - constructor.
  - reflexivity.
  - repeat constructor.
  - right.
    exists (tab +:+ "[buster] - pkgname 1.0-1+deb10u1" +:+ nl), [],
           ("[05 Jan 2021] DSA-4321-1 pkgname - regression update" +:+ nl),
           [ tab +:+ "{CVE-2021-0002}" +:+ nl;
             tab +:+ "[buster] - pkgname 1.0-1+deb10u2" +:+ nl ].
    repeat split.
Defined.

(** With [as_per_block] on, the design's extractor goes on after the line
    that closes a block. *)
Lemma design_block_extractor_rearm
    (start_block end_block search_params : pattern)
    (pre body rest : list string) (s e : string) :
  Forall (fun l => opens start_block l = false) pre ->
  opens start_block s = true ->
  Forall (fun l => closes end_block l = false) body ->
  closes end_block e = true ->
  design_block_extractor true start_block end_block search_params false
    (pre ++ s :: body ++ e :: rest)%list
  = (block_records search_params body
     ++ design_block_extractor true start_block end_block search_params false rest)%list.
Proof.
  intros Hpre Hs Hbody He.
  induction Hpre as [|l pre Hl _ IH].
  - cbn [app design_block_extractor]. unfold opens in Hs.
    destruct (pattern_match start_block (PyStr.rstrip s)); [|discriminate].
    clear Hs. induction Hbody as [|b body Hl _ IH].
    + cbn [app design_block_extractor block_records]. unfold closes in He.
      destruct (pattern_match end_block (PyStr.rstrip e)); [reflexivity|discriminate].
    + cbn [app design_block_extractor block_records]. unfold closes in Hl.
      destruct (pattern_match end_block (PyStr.rstrip b)); [discriminate|].
      destruct (pattern_search search_params (PyStr.rstrip b));
        cbn [app]; now rewrite IH.
  - cbn [app design_block_extractor]. unfold opens in Hl.
    destruct (pattern_match start_block (PyStr.rstrip l)); [discriminate|].
    exact IH.
Qed.

(** C1, as the code has it.  The extractor has no [as_per_block] option,
    and the flag a DSA object carries does not reach it: on input with
    two blocks, each opened by a line matching [start_block] and closed
    by a line matching [end_block], it yields the records of the first
    block only, in the order of the lines; the scan ends at the line that
    closes the first block and does not look for the second. *)
Theorem parse_file_by_block_two_closed_blocks
    (start_block end_block search_params : pattern)
    (pre body1 mid body2 rest : list string) (s1 e1 s2 e2 : string) :
  Forall (fun l => opens start_block l = false) pre ->
  opens start_block s1 = true ->
  Forall (fun l => closes end_block l = false) body1 ->
  closes end_block e1 = true ->
  Forall (fun l => opens start_block l = false) mid ->
  opens start_block s2 = true ->
  Forall (fun l => closes end_block l = false) body2 ->
  closes end_block e2 = true ->
  parse_file_by_block
    (pre ++ s1 :: body1 ++ e1 :: mid ++ s2 :: body2 ++ e2 :: rest)%list
    start_block end_block search_params
  = block_records search_params body1.
Proof.
  intros Hpre Hs1 Hb1 He1 _ _ _ _.
  now apply parse_file_by_block_closed.
Qed.

Lemma parse_file_by_block_two_closed_blocks_witness :
  parse_file_by_block two_blocks
    (DSA_start_block "DSA-4321-1") DSA_end_block DSA_search_params
  = block_records DSA_search_params [tab +:+ "{CVE-2021-0001}" +:+ nl].
Proof.
  apply (parse_file_by_block_two_closed_blocks
           (DSA_start_block "DSA-4321-1") DSA_end_block DSA_search_params
           [] [tab +:+ "{CVE-2021-0001}" +:+ nl] []
           [tab +:+ "{CVE-2021-0002}" +:+ nl] []
           ("[03 Jan 2021] DSA-4321-1 pkgname - security update" +:+ nl)
           (tab +:+ "[buster] - pkgname 1.0-1+deb10u1" +:+ nl)
           ("[05 Jan 2021] DSA-4321-1 pkgname - regression update" +:+ nl)
           (tab +:+ "[buster] - pkgname 1.0-1+deb10u2" +:+ nl));
    first [reflexivity | repeat constructor].
Defined.

(** C1 as stated fails.  The advisory list [two_blocks] has two closed
    blocks for [DSA-4321-1], whose object carries [as_per_block = True];
    the records of both blocks are those of [CVE-2021-0001] and of
    [CVE-2021-0002], and the extractor yields the first only. *)
Lemma parse_file_by_block_two_blocks_counterexample :
  getattr (DSA "DSA-4321-1" PNone) "as_per_block" = Some (PBool true) /\
  getattr (DSA "DSA-4321-1" PNone) "start_block"
    = Some (PPattern (DSA_start_block "DSA-4321-1")) /\
  List.map (opens (DSA_start_block "DSA-4321-1")) two_blocks
    = [true; false; false; true; false; false] /\
  List.map (closes DSA_end_block) two_blocks
    = [false; false; true; false; false; true] /\
  design_block_extractor true
    (DSA_start_block "DSA-4321-1") DSA_end_block DSA_search_params false two_blocks
    = [[Some "CVE-2021-0001"]; [Some "CVE-2021-0002"]] /\
  parse_file_by_block two_blocks
    (DSA_start_block "DSA-4321-1") DSA_end_block DSA_search_params
    = [[Some "CVE-2021-0001"]] /\
  parse_file_by_block two_blocks
    (DSA_start_block "DSA-4321-1") DSA_end_block DSA_search_params
    <> design_block_extractor true
         (DSA_start_block "DSA-4321-1") DSA_end_block DSA_search_params false two_blocks.
Proof.
  repeat split; try reflexivity. discriminate.
Qed.

(** ** The dictionary-path extractor *)

(** C8.  With an empty [key_list] the extractor returns the empty list,
    in both modes and for every first argument, a dictionary or not: the
    early exit comes before anything is asked of the dictionary, so no
    exception can be raised. *)
Theorem parse_dict_empty_key_list (dictionary : pyval) (get_key : bool) :
  parse_dict dictionary [] get_key = Return [].
Proof.
  reflexivity.
Qed.

(** A literal key pattern accepts the keys that start with its text. *)
Lemma run_lit (p s : string) (b : bool) (cs : list (nat * string)) :
  Re.run false (Re.lit p) (Re.MState s b cs) (fun st => Some (Re.caps st))
  = if PyStr.startswith p s then Some cs else None.
Proof.
  revert s b. induction p as [|a p IH]; intros s b; [reflexivity|].
  cbn [Re.lit Re.run]. unfold Re.char_step. cbn [Re.rest Re.lit_test].
  destruct s as [|c s]; [reflexivity|].
  cbn [PyStr.startswith]. rewrite (Ascii.eqb_sym a c).
  destruct (Ascii.eqb c a); [|reflexivity].
  unfold Re.advance. cbn [Re.caps andb]. apply IH.
Qed.

Lemma matches_lit (p key : string) :
  Re.matches false (Re.lit p) key = PyStr.startswith p key.
Proof.
  unfold Re.matches, Re.match_. rewrite run_lit.
  now destruct (PyStr.startswith p key).
Qed.

(** The last level: the selected keys, or their values, in the order of
    the dictionary. *)
Lemma parse_dict_last_level (items : list (string * pyval))
    (key_pattern : regex) (get_key : bool) :
  parse_dict (PDict items) [key_pattern] get_key
  = Return (List.map (collected get_key) (selected key_pattern items)).
Proof.
  cbn [parse_dict].
  assert (forall acc,
    (fix loop (items0 : list (string * pyval)) (search_results : list pyval)
       {struct items0} : result (list pyval) :=
       match items0 with
       | [] => Return search_results
       | (key, value) :: items' =>
           if negb (Re.matches false key_pattern key)
           then loop items' search_results
           else loop items'
                  (search_results ++ [if get_key then PStr key else value])%list
       end) items acc
    = Return (acc ++ List.map (collected get_key) (selected key_pattern items))%list)
    as H.
  { induction items as [|[key value] items IH]; intros acc.
    - cbn. now rewrite app_nil_r.
    - cbn [selected List.filter fst]. fold (selected key_pattern items).
      destruct (Re.matches false key_pattern key); cbn [negb List.map].
      + rewrite IH. unfold collected at 2. cbn [fst snd].
        now rewrite <- app_assoc.
      + apply IH. }
  apply (H []).
Qed.

(** An inner level: the nested calls on the values of the selected keys. *)
Lemma parse_dict_inner_level (items : list (string * pyval))
    (key_pattern next : regex) (key_list : list regex) (get_key : bool) :
  parse_dict (PDict items) (key_pattern :: next :: key_list) get_key
  = extend_all
      (List.map (fun kv => parse_dict kv.2 (next :: key_list) get_key)
                (selected key_pattern items)).
Proof.
  set (inner := fun v => parse_dict v (next :: key_list) get_key).
  change (fun kv : string * pyval => parse_dict kv.2 (next :: key_list) get_key)
    with (fun kv : string * pyval => inner kv.2).
  assert (forall acc,
    (fix loop (items0 : list (string * pyval)) (search_results : list pyval)
       {struct items0} : result (list pyval) :=
       match items0 with
       | [] => Return search_results
       | (key, value) :: items' =>
           if negb (Re.matches false key_pattern key)
           then loop items' search_results
           else
             match inner value with
             | Return found => loop items' (search_results ++ found)%list
             | Raise e => Raise e
             end
       end) items acc
    = match extend_all (List.map (fun kv => inner kv.2) (selected key_pattern items)) with
      | Return more => Return (acc ++ more)%list
      | Raise e => Raise e
      end) as H.
  { induction items as [|[key value] items IH]; intros acc.
    - cbn. now rewrite app_nil_r.
    - cbn [selected List.filter fst]. fold (selected key_pattern items).
      destruct (Re.matches false key_pattern key); cbn [negb List.map extend_all snd].
      + destruct (inner value) as [found|e]; [|reflexivity].
        rewrite IH.
        destruct (extend_all _) as [more|e]; [|reflexivity].
        now rewrite app_assoc.
      + apply IH. }
  transitivity
    (match extend_all (List.map (fun kv => inner kv.2) (selected key_pattern items)) with
     | Return more => Return ([] ++ more)%list
     | Raise e => Raise e
     end).
  - rewrite <- (H []). reflexivity.
  - now destruct (extend_all _).
Qed.

(** C10.  Key patterns are applied with [re.match]: a key is selected
    when the pattern matches at its beginning, whatever follows.  For a
    pattern of ordinary characters the selected keys are those that start
    with its text, at the last level and at every level above it.  The
    key list of RHSA, ['CVE'], therefore selects the key 'CVE' and the
    key 'CVE-2020-1234' alike, and the values of both are collected. *)
Theorem parse_dict_prefix_anchored
    (items : list (string * pyval)) (p : string) (get_key : bool) :
  parse_dict (PDict items) [Re.lit p] get_key
  = Return (List.map (collected get_key)
              (List.filter (fun kv => PyStr.startswith p kv.1) items)) /\
  (forall (next : regex) (key_list : list regex),
     parse_dict (PDict items) (Re.lit p :: next :: key_list) get_key
     = extend_all
         (List.map (fun kv => parse_dict kv.2 (next :: key_list) get_key)
                   (List.filter (fun kv => PyStr.startswith p kv.1) items))) /\
  Re.matches false (Re.lit "CVE") "CVE" = true /\
  Re.matches false (Re.lit "CVE") "CVE-2020-1234" = true /\
  parse_dict advisory_dict RHSA_key_list false = Return [PStr "a"; PStr "b"] /\
  parse_dict advisory_dict RHSA_key_list true
  = Return [PStr "CVE"; PStr "CVE-2020-1234"].
Proof.
  assert (selected (Re.lit p) items
          = List.filter (fun kv => PyStr.startswith p kv.1) items) as Hsel.
  { unfold selected. induction items as [|kv items IH]; [reflexivity|].
    cbn [List.filter]. now rewrite matches_lit, IH. }
  split; [|split; [|repeat split]].
  - now rewrite parse_dict_last_level, Hsel.
  - intros next key_list. now rewrite parse_dict_inner_level, Hsel.
Qed.

(** ** Construction of an indirect vulnerability *)

Lemma allowed_keys_spec (k : string) :
  k ∈ allowed_keys <->
  k = "start_block" \/ k = "end_block" \/ k = "search_params" \/
  k = "as_per_block" \/ k = "xpaths" \/ k = "key_list".
Proof.
  unfold allowed_keys. rewrite !elem_of_union, !elem_of_singleton. tauto.
Qed.

(** The update with the filtered keyword arguments, key by key. *)
Lemma dict_update_allowed (self kwargs : gmap string pyval) (k : string) :
  dict_update self (filter (fun kv => kv.1 ∈ allowed_keys) kwargs) !! k
  = if decide (k ∈ allowed_keys)
    then match kwargs !! k with Some v => Some v | None => self !! k end
    else self !! k.
Proof.
  unfold dict_update. rewrite lookup_union, map_lookup_filter.
  destruct (kwargs !! k) as [v|] eqn:E; cbn.
  - destruct (decide (k ∈ allowed_keys)) as [Hk|Hk].
    + rewrite option_guard_True by exact Hk. cbn.
      now destruct (self !! k).
    + rewrite option_guard_False by exact Hk. cbn.
      now destruct (self !! k).
  - destruct (decide (k ∈ allowed_keys)); now destruct (self !! k).
Qed.

(** The attributes after [UnparsableVulnerability.__init__], name by
    name. *)
Lemma UnparsableVulnerability_init_lookup
    (vuln_id : string) (packages : pyval) (base_url parse_mode : string)
    (entrypoint_urls : pyval) (kwargs : gmap string pyval) (k : string) :
  UnparsableVulnerability_init ∅ vuln_id packages base_url parse_mode
    entrypoint_urls kwargs !! k
  = (if decide (k ∈ allowed_keys) then kwargs !! k
     else UnparsableVulnerability_init ∅ vuln_id packages base_url parse_mode
            entrypoint_urls ∅ !! k) /\
  UnparsableVulnerability_init ∅ vuln_id packages base_url parse_mode
    entrypoint_urls ∅
  = <["packages" := packages]>
      (<["entrypoint_urls" :=
           if truthy entrypoint_urls then entrypoint_urls else PList []]>
         (<["vuln_id" := PStr vuln_id]>
            (<["allowed_keys" := PSet allowed_keys]>
               (<["parse_mode" := PStr parse_mode]>
                  (<["equivalent_vulns" := PList []]>
                     (<["base_url" := PStr base_url]> ∅)))))).
Proof.
  split.
  - unfold UnparsableVulnerability_init, Vulnerability_init.
    rewrite !lookup_insert, !dict_update_allowed, lookup_empty.
    destruct (decide (k ∈ allowed_keys)) as [Hk|Hk].
    + apply allowed_keys_spec in Hk.
      repeat (case_decide; [subst k; exfalso; clear -Hk;
                            repeat (destruct Hk as [Hk|Hk]; [discriminate|]);
                            discriminate|]).
      rewrite !lookup_insert_ne, lookup_empty;
        try (intros <-; clear -Hk;
             repeat (destruct Hk as [Hk|Hk]; [discriminate|]); discriminate).
      now destruct (kwargs !! k).
    + reflexivity.
  - unfold UnparsableVulnerability_init, Vulnerability_init, dict_update.
    now rewrite map_filter_empty, (left_id_L ∅ (∪)).
Qed.

(** C9 as stated fails.  A keyword named like a parameter that a
    positional argument has bound is not dropped: the call raises
    [TypeError].  The keyword [entrypoint_urls], which is none of the six
    keys, is accepted and set. *)
Lemma UnparsableVulnerability_new_counterexample :
  raises "TypeError"
    (UnparsableVulnerability_new "DSA-4321-1" PNone DSA_base_url "plain"
       (<["vuln_id" := PStr "DSA-1"]> ∅)) = true /\
  (exists d,
     UnparsableVulnerability_new "DSA-4321-1" PNone DSA_base_url "plain"
       (<["entrypoint_urls" := PList [PStr "https://example.org/"]]> ∅)
     = Return d /\
     d !! "entrypoint_urls" = Some (PList [PStr "https://example.org/"])).
Proof.
  split; [reflexivity|].
  eexists. split; reflexivity.
Qed.

(** C9, as the code has it.  A construction that gives the four
    required arguments by position and any keywords besides, none of them
    named [self], [vuln_id], [packages], [base_url] or [parse_mode],
    raises nothing.  On the object, the six names [start_block],
    [end_block], [search_params], [as_per_block], [xpaths] and [key_list]
    hold what the keywords give for them (nothing where no keyword gives
    it); every other name holds what the constructor sets without regard
    to the keywords, namely [base_url], [equivalent_vulns], [parse_mode],
    [allowed_keys], [vuln_id], [packages] and [entrypoint_urls], the last
    being the keyword of that name if it is given and true, else the
    empty list.  Every other keyword is dropped. *)
Theorem UnparsableVulnerability_new_keywords
    (vuln_id : string) (packages : pyval) (base_url parse_mode : string)
    (keywords : gmap string pyval) :
  Forall (fun p => keywords !! p = None)
         ["self"; "vuln_id"; "packages"; "base_url"; "parse_mode"] ->
  exists d : gmap string pyval,
    UnparsableVulnerability_new vuln_id packages base_url parse_mode keywords
    = Return d /\
    forall k : string,
      d !! k
      = if bool_decide (k ∈ ["start_block"; "end_block"; "search_params";
                              "as_per_block"; "xpaths"; "key_list"])
        then keywords !! k
        else
          ((<["packages" := packages]>
             (<["entrypoint_urls" :=
                  match keywords !! "entrypoint_urls" with
                  | Some e => if truthy e then e else PList []
                  | None => PList []
                  end]>
                (<["vuln_id" := PStr vuln_id]>
                   (<["allowed_keys" :=
                        PSet {[ "start_block"; "end_block"; "search_params";
                                "as_per_block"; "xpaths"; "key_list" ]}]>
                      (<["parse_mode" := PStr parse_mode]>
                         (<["equivalent_vulns" := PList []]>
                            (<["base_url" := PStr base_url]> ∅)))))))
           : gmap string pyval) !! k.
Proof.
  intros Hfree.
  assert (existsb (fun p => match keywords !! p with Some _ => true | None => false end)
            ["self"; "vuln_id"; "packages"; "base_url"; "parse_mode"] = false) as Hex.
  { repeat match goal with
           | H : Forall _ (_ :: _) |- _ =>
               let Hx := fresh in
               apply Forall_cons in H as [Hx H]; cbn [existsb]; rewrite Hx
           end. reflexivity. }
  unfold UnparsableVulnerability_new. rewrite Hex.
  eexists. split; [reflexivity|]. intros k.
  destruct (UnparsableVulnerability_init_lookup vuln_id packages base_url parse_mode
              (default PNone (keywords !! "entrypoint_urls"))
              (delete "entrypoint_urls" keywords) k) as [Hk Hfix].
  rewrite Hk, Hfix. clear Hk Hfix.
  destruct (decide (k ∈ allowed_keys)) as [Hin|Hout].
  - pose proof (proj1 (allowed_keys_spec k) Hin) as Hnames.
    rewrite bool_decide_eq_true_2.
    + apply lookup_delete_ne. intros <-.
      repeat (destruct Hnames as [Hnames|Hnames]; [discriminate|]).
      discriminate.
    + rewrite !elem_of_cons. tauto.
  - rewrite bool_decide_eq_false_2.
    + destruct (keywords !! "entrypoint_urls") as [e|]; reflexivity.
    + intros Hin. apply Hout, allowed_keys_spec.
      rewrite !elem_of_cons, elem_of_nil in Hin. tauto.
Qed.

Lemma UnparsableVulnerability_new_keywords_witness :
  exists d : gmap string pyval,
    UnparsableVulnerability_new "DSA-4321-1" PNone DSA_base_url "plain"
      (<["as_per_block" := PBool true]> (<["timeout" := PInt 30]> ∅))
    = Return d /\
    d !! "as_per_block" = Some (PBool true) /\
    d !! "timeout" = None /\
    d !! "parse_mode" = Some (PStr "plain").
Proof.
  destruct (UnparsableVulnerability_new_keywords "DSA-4321-1" PNone DSA_base_url
              "plain" (<["as_per_block" := PBool true]> (<["timeout" := PInt 30]> ∅)))
    as (d & Hd & Hk).
  - repeat constructor.
  - exists d. split; [exact Hd|].
    rewrite (Hk "as_per_block"), (Hk "timeout"), (Hk "parse_mode").
    repeat split.
Defined.

(** A configuration with one recognised and one unrecognised key. *)
Example UnparsableVulnerability_init_drops_unrecognised :
  let self :=
    UnparsableVulnerability_init ∅ "DSA-4321-1" PNone DSA_base_url "plain" PNone
      (<["as_per_block" := PBool true]> (<["timeout" := PInt 30]> ∅)) in
  self !! "as_per_block" = Some (PBool true) /\
  self !! "timeout" = None /\
  self !! "parse_mode" = Some (PStr "plain").
Proof.
  repeat split.
Qed.

(** ** Translation *)

(** C5, as the code has it.  The translation of an indirect
    vulnerability is a placeholder: whatever the source would yield,
    [translate] returns [None] without raising and leaves the object as
    it was built, its [equivalent_vulns] still the empty list; likewise
    [translate_vuln] leaves the [runnable_vulns] of the context empty. *)
Theorem translate_leaves_equivalents_empty
    (vuln_id : string) (packages : pyval) (v : object) :
  create_vuln vuln_id packages = Some v ->
  is_indirect v = true ->
  translate v = Return (v, PNone) /\
  getattr v "equivalent_vulns" = Some (PList []) /\
  translate_vuln (Context_init (Some v)) = Return (Context_init (Some v), PNone) /\
  runnable_vulns (Context_init (Some v)) = [].
Proof.
  intros Hv Hind. repeat split.
  unfold create_vuln in Hv.
  destruct (Re.matches true CVE_pattern vuln_id).
  { injection Hv as <-. discriminate Hind. }
  destruct (Re.matches true DSA_pattern vuln_id).
  { injection Hv as <-. reflexivity. }
  destruct (Re.matches true RHSA_pattern vuln_id); [|discriminate].
  injection Hv as <-. reflexivity.
Qed.

Lemma translate_leaves_equivalents_empty_witness :
  create_vuln "DSA-4321-1" PNone = Some (DSA "DSA-4321-1" PNone) /\
  is_indirect (DSA "DSA-4321-1" PNone) = true /\
  translate (DSA "DSA-4321-1" PNone) = Return (DSA "DSA-4321-1" PNone, PNone) /\
  getattr (DSA "DSA-4321-1" PNone) "equivalent_vulns" = Some (PList []) /\
  translate_vuln (Context_init (Some (DSA "DSA-4321-1" PNone)))
  = Return (Context_init (Some (DSA "DSA-4321-1" PNone)), PNone) /\
  runnable_vulns (Context_init (Some (DSA "DSA-4321-1" PNone))) = [].
Proof.
  split; [reflexivity|]. split; [reflexivity|].
  apply (translate_leaves_equivalents_empty "DSA-4321-1" PNone); reflexivity.
Defined.

(** C5 as stated fails.  For [DSA-4321-1] and an empty source, from which
    the block extractor of its configuration draws no record, [translate]
    returns [None]; no [TranslationError] is raised and the list of
    equivalents is the empty one. *)
Lemma translate_zero_records_counterexample :
  parse_file_by_block []
    (DSA_start_block "DSA-4321-1") DSA_end_block DSA_search_params = [] /\
  is_indirect (DSA "DSA-4321-1" PNone) = true /\
  translate (DSA "DSA-4321-1" PNone) = Return (DSA "DSA-4321-1" PNone, PNone) /\
  raises "TranslationError" (translate (DSA "DSA-4321-1" PNone)) = false /\
  getattr (DSA "DSA-4321-1" PNone) "equivalent_vulns" = Some (PList []) /\
  raises "TranslationError"
    (translate_vuln (Context_init (Some (DSA "DSA-4321-1" PNone)))) = false.
Proof.
  repeat split.
Qed.

(** ** Conversion of a JSON response *)

Section JsonResponseFacts.

Variable json_loads : string -> result pyval.
Variable dicttoxml : pyval -> result string.

Lemma json_response_to_xml_ok (r : response) (dictionary : pyval) (xml : string) :
  json_loads (body r) = Return dictionary ->
  dicttoxml dictionary = Return xml ->
  json_response_to_xml json_loads dicttoxml r = Return (Response (url r) xml).
Proof.
  intros Hd Hx. unfold json_response_to_xml. now rewrite Hd, Hx.
Qed.

Lemma json_response_to_xml_raise (r : response) (e : exn) :
  json_loads (body r) = Raise e ->
  json_response_to_xml json_loads dicttoxml r = Raise e.
Proof.
  intros Hd. unfold json_response_to_xml. now rewrite Hd.
Qed.

End JsonResponseFacts.

(** C6, as the code has it.  When the body of a response is not JSON the
    decoder's exception leaves [json_response_to_xml] as it is, a
    [JSONDecodeError] of the library for malformed JSON: it is not turned
    into another class and the locator of the response is not added to
    it.  No response is returned in that case. *)
Theorem json_response_to_xml_malformed
    (json_loads : string -> result pyval) (dicttoxml : pyval -> result string)
    (r : response) (e : exn) :
  json_loads (body r) = Raise e ->
  json_response_to_xml json_loads dicttoxml r = Raise e /\
  raises (exn_class e) (json_response_to_xml json_loads dicttoxml r) = true /\
  forall r', json_response_to_xml json_loads dicttoxml r <> Return r'.
Proof.
  intros Hd. rewrite (json_response_to_xml_raise _ _ _ _ Hd).
  split; [reflexivity|]. split; [|discriminate].
  cbn. apply String.eqb_refl.
Qed.

Lemma json_response_to_xml_malformed_witness :
  Json.loads truncated_json = Raise (Exn "JSONDecodeError" "Expecting value") /\
  json_response_to_xml Json.loads (fun _ => Return "")
    (Response (RHSA_base_url "RHSA:2020-1234") truncated_json)
  = Raise (Exn "JSONDecodeError" "Expecting value").
Proof.
  split; [reflexivity|].
  apply (json_response_to_xml_malformed Json.loads (fun _ => Return "")
           (Response (RHSA_base_url "RHSA:2020-1234") truncated_json)
           (Exn "JSONDecodeError" "Expecting value")).
  reflexivity.
Defined.

(** C6 as stated fails.  For the truncated body [truncated_json] fetched
    for [RHSA:2020-1234] the call ends with the decoder's
    [JSONDecodeError], not with a [MalformedSourceError], and the message
    does not hold the locator. *)
Lemma json_response_to_xml_malformed_counterexample :
  getattr (RHSA "RHSA:2020-1234" PNone) "parse_mode" = Some (PStr "json") /\
  json_response_to_xml Json.loads (fun _ => Return "")
    (Response (RHSA_base_url "RHSA:2020-1234") truncated_json)
  = Raise (Exn "JSONDecodeError" "Expecting value") /\
  raises "MalformedSourceError"
    (json_response_to_xml Json.loads (fun _ => Return "")
       (Response (RHSA_base_url "RHSA:2020-1234") truncated_json)) = false /\
  PyStr.contains (RHSA_base_url "RHSA:2020-1234") "Expecting value" = false.
Proof.
  repeat split.
Qed.

(** * Further properties *)

(** ** Greedy repetition *)

Lemma append_nil_l (s : string) : "" +:+ s = s.
Proof. reflexivity. Qed.

Lemma append_cons (c : ascii) (u v : string) :
  String c u +:+ v = String c (u +:+ v).
Proof. reflexivity. Qed.

Lemma plus_loop (p : ascii -> bool)
    (k : Re.mstate -> option (list (nat * string)))
    (fuel : nat) (t : string) (cs : list (nat * string)) :
  String.length t <= fuel ->
  (fix more (fuel : nat) (cur : Re.mstate) {struct fuel} :=
     match fuel with
     | O => k cur
     | S fuel' =>
         match Re.char_step p cur (fun nxt =>
                 if Nat.ltb (String.length (Re.rest nxt)) (String.length (Re.rest cur))
                 then more fuel' nxt else None) with
         | Some c => Some c
         | None => k cur
         end
     end) fuel (Re.MState t false cs)
  = Greedy.star p (fun u => k (Re.MState u false cs)) t.
Proof.
  revert t. induction fuel as [|fuel IH]; intros t Hlen.
  - destruct t; [reflexivity|]. cbn in Hlen. lia.
  - destruct t as [|c t]; [reflexivity|].
    unfold Re.char_step. cbn [Re.rest Greedy.star].
    destruct (p c); [|reflexivity].
    unfold Re.advance. cbn [Re.rest Re.caps String.length].
    assert (Nat.ltb (String.length t) (S (String.length t)) = true) as ->
      by (apply Nat.ltb_lt; lia).
    rewrite IH by (cbn in Hlen; lia). reflexivity.
Qed.

(** [c+] in the matcher is [Greedy.plus] on the text. *)
Lemma run_plus (ic : bool) (r : regex) (p : ascii -> bool)
    (s : string) (b : bool) (cs : list (nat * string))
    (k : Re.mstate -> option (list (nat * string))) :
  Greedy.class ic r = Some p ->
  Re.run ic (Plus r) (Re.MState s b cs) k
  = Greedy.plus p (fun t => k (Re.MState t false cs)) s.
Proof.
  intros Hc.
  destruct r; try discriminate Hc; injection Hc as <-;
    cbn [Re.run]; unfold Re.char_step at 1; cbn [Re.rest];
    (destruct s as [|h s']; [reflexivity|]);
    cbn [Greedy.plus];
    match goal with |- context [if ?t then _ else _] => destruct t end;
    try reflexivity;
    unfold Re.advance; cbn [Re.rest Re.caps];
    apply plus_loop; lia.
Qed.

Section GreedyFacts.

Context {A : Type}.
Variable p : ascii -> bool.
Variable k : string -> option A.

(** What [star] returns, [k] returns on a suffix reached through
    characters of the class. *)
Lemma star_inv (s : string) (x : A) :
  Greedy.star p k s = Some x ->
  exists u v, s = u +:+ v /\ PyText.all p u = true /\ k v = Some x.
Proof.
  induction s as [|c s IH]; cbn [Greedy.star]; intros H.
  - exists "", "". auto.
  - destruct (p c) eqn:Hp.
    + destruct (Greedy.star p k s) as [y|] eqn:Hs.
      * injection H as <-. destruct (IH eq_refl) as (u & v & -> & Hu & Hv).
        exists (String c u), v. cbn. rewrite Hp. auto.
      * exists "", (String c s). auto.
    + exists "", (String c s). auto.
Qed.

Lemma plus_inv (s : string) (x : A) :
  Greedy.plus p k s = Some x ->
  exists u v, s = u +:+ v /\ PyText.all p u = true /\
              1 <= String.length u /\ k v = Some x.
Proof.
  destruct s as [|c s]; cbn [Greedy.plus]; [discriminate|].
  destruct (p c) eqn:Hp; [|discriminate]. intros H.
  destruct (star_inv _ _ H) as (u & v & -> & Hu & Hv).
  exists (String c u), v. cbn. rewrite Hp. repeat split; auto. lia.
Qed.

(** If [k] accepts after a run of the class, [star] accepts. *)
Lemma star_some (u v : string) (x : A) :
  PyText.all p u = true -> k v = Some x ->
  exists y, Greedy.star p k (u +:+ v) = Some y.
Proof.
  induction u as [|c u IH]; intros Hu Hv.
  - rewrite append_nil_l. destruct v as [|d v]; cbn; [eauto|].
    destruct (p d); [|eauto].
    destruct (Greedy.star p k v); eauto.
  - rewrite append_cons. cbn [Greedy.star]. cbn in Hu.
    apply andb_true_iff in Hu as [-> Hu].
    destruct (IH Hu Hv) as [y ->]. eauto.
Qed.

Lemma plus_some (u v : string) (x : A) :
  PyText.all p u = true -> 1 <= String.length u -> k v = Some x ->
  exists y, Greedy.plus p k (u +:+ v) = Some y.
Proof.
  destruct u as [|c u]; cbn; intros Hu Hlen Hv; [lia|].
  rewrite append_cons. cbn [Greedy.plus].
  apply andb_true_iff in Hu as [-> Hu]. now apply (star_some u v x).
Qed.

(** When [k] refuses every text that begins with a character of the
    class, the run is the longest one. *)
Lemma star_longest (u v : string) :
  PyText.all p u = true ->
  (forall c w, p c = true -> k (String c w) = None) ->
  match v with String c _ => p c = false | EmptyString => True end ->
  Greedy.star p k (u +:+ v) = k v.
Proof.
  intros Hu Hk Hv. induction u as [|c u IH].
  - rewrite append_nil_l. destruct v as [|d v]; [reflexivity|]. cbn. now rewrite Hv.
  - rewrite append_cons. cbn [Greedy.star]. cbn in Hu.
    apply andb_true_iff in Hu as [Hc Hu]. rewrite Hc, (IH Hu).
    destruct (k v) eqn:E; [reflexivity|]. now apply Hk.
Qed.

End GreedyFacts.

(** ** Characters and text *)

Lemma lower_idem (c : ascii) : PyChar.lower (PyChar.lower c) = PyChar.lower c.
Proof. destruct c as [[] [] [] [] [] [] [] []]; reflexivity. Qed.

Lemma isdecimal_lower (c : ascii) :
  PyChar.isdecimal (PyChar.lower c) = PyChar.isdecimal c.
Proof. destruct c as [[] [] [] [] [] [] [] []]; reflexivity. Qed.

Lemma isdecimal_lower_id (c : ascii) :
  PyChar.isdecimal c = true -> PyChar.lower c = c.
Proof. destruct c as [[] [] [] [] [] [] [] []]; (reflexivity || discriminate). Qed.

Lemma lower_hyphen (c : ascii) : PyChar.lower c = "-"%char -> c = "-"%char.
Proof. destruct c as [[] [] [] [] [] [] [] []]; (reflexivity || discriminate). Qed.

Lemma lower_newline (c : ascii) :
  PyChar.lower c = PyChar.newline -> c = PyChar.newline.
Proof. destruct c as [[] [] [] [] [] [] [] []]; (reflexivity || discriminate). Qed.

Lemma isdecimal_not_hyphen (c : ascii) :
  PyChar.isdecimal c = true -> Re.lit_test true "-" c = false.
Proof. destruct c as [[] [] [] [] [] [] [] []]; (reflexivity || discriminate). Qed.

Lemma append_assoc (u v w : string) : (u +:+ v) +:+ w = u +:+ (v +:+ w).
Proof.
  induction u as [|c u IH]; [reflexivity|].
  rewrite !append_cons. now rewrite IH.
Qed.

Lemma append_nil_r (u : string) : u +:+ "" = u.
Proof.
  induction u as [|c u IH]; [reflexivity|]. rewrite append_cons. now rewrite IH.
Qed.

Lemma length_append (u v : string) :
  String.length (u +:+ v) = String.length u + String.length v.
Proof.
  induction u as [|c u IH]; [reflexivity|]. rewrite append_cons. cbn. now rewrite IH.
Qed.

Lemma lower_append (u v : string) :
  PyText.lower (u +:+ v) = PyText.lower u +:+ PyText.lower v.
Proof.
  induction u as [|c u IH]; [reflexivity|].
  rewrite append_cons. cbn [PyText.lower]. rewrite append_cons. now rewrite IH.
Qed.

Lemma lower_length (u : string) :
  String.length (PyText.lower u) = String.length u.
Proof.
  induction u as [|c u IH]; [reflexivity|]. cbn. now rewrite IH.
Qed.

Lemma lower_lower (u : string) : PyText.lower (PyText.lower u) = PyText.lower u.
Proof.
  induction u as [|c u IH]; [reflexivity|]. cbn. now rewrite lower_idem, IH.
Qed.

Lemma all_append (p : ascii -> bool) (u v : string) :
  PyText.all p (u +:+ v) = PyText.all p u && PyText.all p v.
Proof.
  induction u as [|c u IH]; [reflexivity|].
  rewrite append_cons. cbn. rewrite IH. now rewrite andb_assoc.
Qed.

Lemma lower_digits (a : string) :
  PyText.all PyChar.isdecimal a = true -> PyText.lower a = a.
Proof.
  induction a as [|c a IH]; [reflexivity|]. cbn.
  intros [Hc Ha]%andb_true_iff. now rewrite (isdecimal_lower_id c Hc), (IH Ha).
Qed.

Lemma digits_lower (a : string) :
  PyText.all PyChar.isdecimal (PyText.lower a) = PyText.all PyChar.isdecimal a.
Proof.
  induction a as [|c a IH]; [reflexivity|]. cbn. now rewrite isdecimal_lower, IH.
Qed.

(** A text whose lower-case form splits in two splits alike. *)
Lemma lower_split (s u v : string) :
  PyText.lower s = u +:+ v ->
  exists u0 v0, s = u0 +:+ v0 /\ PyText.lower u0 = u /\ PyText.lower v0 = v.
Proof.
  revert s. induction u as [|c u IH]; intros s H.
  - exists "", s. auto.
  - destruct s as [|d s]; [discriminate|].
    rewrite append_cons in H. cbn in H. injection H as Hc Hs.
    destruct (IH s Hs) as (u0 & v0 & -> & Hu & Hv).
    exists (String d u0), v0. cbn. rewrite Hc, Hu. auto.
Qed.

(** ** The identifier patterns *)

(** An ordinary text in a pattern used with [re.I] reads a text that is
    the same up to letter case. *)
Lemma run_lit_ic (p s : string) (b : bool) (cs : list (nat * string))
    (k : Re.mstate -> option (list (nat * string))) (x : list (nat * string)) :
  1 <= String.length p ->
  Re.run true (Re.lit p) (Re.MState s b cs) k = Some x <->
  exists u v, s = u +:+ v /\ PyText.lower u = PyText.lower p /\
              k (Re.MState v false cs) = Some x.
Proof.
  revert s b. induction p as [|a p IH]; intros s b Hlen; [cbn in Hlen; lia|].
  cbn [Re.lit Re.run]. unfold Re.char_step. cbn [Re.rest Re.lit_test].
  split.
  - destruct s as [|c s]; [discriminate|].
    destruct (Ascii.eqb (PyChar.lower c) (PyChar.lower a)) eqn:E; [|discriminate].
    apply Ascii.eqb_eq in E. unfold Re.advance. cbn [Re.caps].
    destruct p as [|a' p].
    + cbn [Re.lit Re.run]. intros H. exists (String c ""), s.
      cbn. rewrite E. auto.
    + intros H. apply IH in H as (u & v & -> & Hu & Hv); [|cbn; lia].
      exists (String c u), v. cbn [PyText.lower]. rewrite E, Hu. auto.
  - intros (u & v & -> & Hu & Hv).
    destruct u as [|c u]; [discriminate|].
    cbn in Hu. injection Hu as Hc Hu. rewrite append_cons.
    rewrite Hc, Ascii.eqb_refl. unfold Re.advance. cbn [Re.caps].
    destruct p as [|a' p].
    + destruct u; [|discriminate]. exact Hv.
    + apply IH; [cbn; lia|]. exists u, v. auto.
Qed.

Lemma run_Cat (ic : bool) (r1 r2 : regex) (st : Re.mstate)
    (k : Re.mstate -> option (list (nat * string))) :
  Re.run ic (Cat r1 r2) st k = Re.run ic r1 st (fun st1 => Re.run ic r2 st1 k).
Proof. reflexivity. Qed.

Lemma run_Bol (ic : bool) (s : string) (cs : list (nat * string))
    (k : Re.mstate -> option (list (nat * string))) :
  Re.run ic Bol (Re.MState s true cs) k = k (Re.MState s true cs).
Proof. reflexivity. Qed.

Lemma run_class (ic : bool) (r : regex) (p : ascii -> bool)
    (s : string) (b : bool) (cs : list (nat * string))
    (k : Re.mstate -> option (list (nat * string))) :
  Greedy.class ic r = Some p ->
  Re.run ic r (Re.MState s b cs) k
  = match s with
    | String c s' => if p c then k (Re.MState s' false cs) else None
    | EmptyString => None
    end.
Proof.
  intros Hc. destruct r; try discriminate Hc; injection Hc as <-; reflexivity.
Qed.

Lemma at_eol_inv (t : string) :
  Re.at_eol t = true <-> t = "" \/ t = String PyChar.newline "".
Proof.
  split.
  - destruct t as [|c [|d t]]; cbn; intros H; auto; [|discriminate].
    apply Ascii.eqb_eq in H. subst c. auto.
  - intros [-> | ->]; reflexivity.
Qed.

(** The end of the three patterns: digits, a hyphen, digits, [$]. *)
Lemma run_pair_end (s : string) (cs : list (nat * string)) :
  (exists x, Re.run true (Re.cats [Lit "-"; Plus Digit; Eol])
               (Re.MState s false cs) (fun st => Some (Re.caps st)) = Some x) <->
  exists b t, s = "-" +:+ b +:+ t /\
              PyText.all PyChar.isdecimal b = true /\
              1 <= String.length b /\
              (t = "" \/ t = String PyChar.newline "").
Proof.
  cbn [Re.cats fold_right]. rewrite run_Cat.
  rewrite (run_class true (Lit "-") _ s false cs _ eq_refl).
  split.
  - intros [x H]. destruct s as [|c s]; [discriminate|].
    destruct (Re.lit_test true "-" c) eqn:Hc; [|discriminate].
    apply Ascii.eqb_eq, lower_hyphen in Hc. subst c.
    rewrite run_Cat, (run_plus true Digit _ s false cs _ eq_refl) in H.
    apply plus_inv in H as (b & t & -> & Hb & Hlen & H).
    cbn [Re.run Re.rest] in H.
    destruct (Re.at_eol t) eqn:Ht; [|discriminate].
    exists b, t. repeat split; auto. now apply at_eol_inv.
  - intros (b & t & -> & Hb & Hlen & Ht).
    rewrite append_cons, append_nil_l.
    change (Re.lit_test true "-" "-") with true. cbv iota.
    rewrite run_Cat, (run_plus true Digit _ _ false cs _ eq_refl).
    apply (plus_some _ _ b t cs); auto.
    cbn [Re.run Re.rest]. apply at_eol_inv in Ht. now rewrite Ht.
Qed.

Lemma run_pair_refuses_digit (c : ascii) (w : string) (cs : list (nat * string)) :
  PyChar.isdecimal c = true ->
  Re.run true (Re.cats [Lit "-"; Plus Digit; Eol])
    (Re.MState (String c w) false cs) (fun st => Some (Re.caps st)) = None.
Proof.
  intros Hc. cbn [Re.cats fold_right]. rewrite run_Cat.
  rewrite (run_class true (Lit "-") _ _ false cs _ eq_refl).
  now rewrite (isdecimal_not_hyphen c Hc).
Qed.

(** One or more digits, then the end. *)
Lemma run_number_pair_1 (s : string) (cs : list (nat * string)) :
  (exists x, Re.run true (Re.cats [Plus Digit; Lit "-"; Plus Digit; Eol])
               (Re.MState s false cs) (fun st => Some (Re.caps st)) = Some x) <->
  number_pair 1 s.
Proof.
  change (Re.cats [Plus Digit; Lit "-"; Plus Digit; Eol])
    with (Cat (Plus Digit) (Re.cats [Lit "-"; Plus Digit; Eol])).
  rewrite run_Cat, (run_plus true Digit _ s false cs _ eq_refl).
  split.
  - intros [x H]. apply plus_inv in H as (a & v & -> & Ha & Hlen & H).
    destruct (proj1 (run_pair_end v cs) (ex_intro _ x H))
      as (b & t & -> & Hb & Hlb & Ht).
    exists a, b, t. repeat split; auto.
  - intros (a & b & t & -> & Ha & Hlen & Hb & Hlb & Ht).
    destruct (proj2 (run_pair_end ("-" +:+ b +:+ t) cs)) as [x Hx].
    { exists b, t. repeat split; auto. }
    now apply (plus_some _ _ a _ x).
Qed.

(** Three or more digits, then the end. *)
Lemma run_number_pair_3 (s : string) (cs : list (nat * string)) :
  (exists x, Re.run true (Re.cats [Re.at_least3 Digit; Lit "-"; Plus Digit; Eol])
               (Re.MState s false cs) (fun st => Some (Re.caps st)) = Some x) <->
  number_pair 3 s.
Proof.
  change (Re.cats [Re.at_least3 Digit; Lit "-"; Plus Digit; Eol])
    with (Cat (Cat Digit (Cat Digit (Plus Digit)))
              (Re.cats [Lit "-"; Plus Digit; Eol])).
  rewrite !run_Cat.
  rewrite (run_class true Digit _ s false cs _ eq_refl).
  split.
  - intros [x H]. destruct s as [|d1 s]; [discriminate|].
    destruct (PyChar.isdecimal d1) eqn:H1; [|discriminate].
    rewrite run_Cat, (run_class true Digit _ s false cs _ eq_refl) in H.
    destruct s as [|d2 s]; [discriminate|].
    destruct (PyChar.isdecimal d2) eqn:H2; [|discriminate].
    rewrite (run_plus true Digit _ s false cs _ eq_refl) in H.
    apply plus_inv in H as (a & v & -> & Ha & Hlen & H).
    destruct (proj1 (run_pair_end v cs) (ex_intro _ x H))
      as (b & t & -> & Hb & Hlb & Ht).
    exists (String d1 (String d2 a)), b, t. cbn. rewrite H1, H2, Ha.
    repeat split; auto. lia.
  - intros (a & b & t & -> & Ha & Hlen & Hb & Hlb & Ht).
    destruct a as [|d1 [|d2 a]]; cbn in Hlen; try lia.
    cbn in Ha. apply andb_true_iff in Ha as [H1 Ha].
    apply andb_true_iff in Ha as [H2 Ha].
    rewrite !append_cons, H1.
    rewrite run_Cat, (run_class true Digit _ _ false cs _ eq_refl), H2.
    rewrite (run_plus true Digit _ _ false cs _ eq_refl).
    destruct (proj2 (run_pair_end ("-" +:+ b +:+ t) cs)) as [x Hx].
    { exists b, t. repeat split; auto. }
    apply (plus_some _ _ a _ x); auto. lia.
Qed.

Lemma matches_run (ic : bool) (r : regex) (s : string) :
  Re.matches ic r s = true <->
  exists x, Re.run ic r (Re.MState s true []) (fun st => Some (Re.caps st)) = Some x.
Proof.
  unfold Re.matches, Re.match_.
  destruct (Re.run ic r _ _) as [x|]; split; eauto; try discriminate.
  intros [x H]. discriminate.
Qed.

(** A prefix, a hyphen, and what follows. *)
Lemma run_prefix_hyphen (pre : string) (tail : regex) (s : string)
    (x : list (nat * string)) :
  1 <= String.length pre ->
  Re.run true (Cat Bol (Cat (Re.lit pre) (Cat (Lit "-") tail)))
    (Re.MState s true []) (fun st => Some (Re.caps st)) = Some x <->
  exists p rest, s = p +:+ rest /\
    PyText.lower p = PyText.lower pre +:+ "-" /\
    Re.run true tail (Re.MState rest false []) (fun st => Some (Re.caps st)) = Some x.
Proof.
  intros Hlen. rewrite run_Cat, run_Bol.
  rewrite run_Cat, (run_lit_ic pre s true [] _ x Hlen).
  split.
  - intros (u & v & -> & Hu & H).
    rewrite run_Cat, (run_class true (Lit "-") _ v false [] _ eq_refl) in H.
    destruct v as [|c v]; [discriminate|].
    destruct (Re.lit_test true "-" c) eqn:Hc; [|discriminate].
    apply Ascii.eqb_eq, lower_hyphen in Hc. subst c.
    exists (u +:+ "-"), v. rewrite append_assoc, lower_append, Hu. auto.
  - intros (p & rest & -> & Hp & H).
    apply lower_split in Hp as (u & h & -> & Hu & Hh).
    destruct h as [|c [|d h]]; try discriminate.
    cbn in Hh. injection Hh as Hc. apply lower_hyphen in Hc. subst c.
    exists u, ("-" +:+ rest). rewrite append_assoc. repeat split; auto.
Qed.

Lemma run_prefix (pre : string) (tail : regex) (s : string)
    (x : list (nat * string)) :
  1 <= String.length pre ->
  Re.run true (Cat Bol (Cat (Re.lit pre) tail))
    (Re.MState s true []) (fun st => Some (Re.caps st)) = Some x <->
  exists p rest, s = p +:+ rest /\
    PyText.lower p = PyText.lower pre /\
    Re.run true tail (Re.MState rest false []) (fun st => Some (Re.caps st)) = Some x.
Proof.
  intros Hlen. rewrite run_Cat, run_Bol.
  rewrite run_Cat. apply run_lit_ic, Hlen.
Qed.

(** The identifiers each pattern accepts. *)
Lemma matches_kind_iff (k : kind) (s : string) :
  Re.matches true (kind_pattern k) s = true <->
  advisory_form (kind_prefix k) (kind_min_digits k) s.
Proof.
  rewrite matches_run. unfold advisory_form. destruct k; cbn [kind_pattern kind_prefix kind_min_digits].
  - change CVE_pattern with
      (Cat Bol (Cat (Re.lit "CVE")
         (Cat (Lit "-") (Re.cats [Plus Digit; Lit "-"; Plus Digit; Eol])))).
    split.
    + intros [x H]. apply run_prefix_hyphen in H as (p & rest & -> & Hp & H); [|cbn; lia].
      exists p, rest. split; [reflexivity|]. split; [exact Hp|].
      apply (proj1 (run_number_pair_1 rest [])). eauto.
    + intros (p & rest & -> & Hp & H).
      apply (proj2 (run_number_pair_1 rest [])) in H as [x H]. exists x.
      apply run_prefix_hyphen; [cbn; lia|]. exists p, rest. auto.
  - change DSA_pattern with
      (Cat Bol (Cat (Re.lit "DSA")
         (Cat (Lit "-") (Re.cats [Re.at_least3 Digit; Lit "-"; Plus Digit; Eol])))).
    split.
    + intros [x H]. apply run_prefix_hyphen in H as (p & rest & -> & Hp & H); [|cbn; lia].
      exists p, rest. split; [reflexivity|]. split; [exact Hp|].
      apply (proj1 (run_number_pair_3 rest [])). eauto.
    + intros (p & rest & -> & Hp & H).
      apply (proj2 (run_number_pair_3 rest [])) in H as [x H]. exists x.
      apply run_prefix_hyphen; [cbn; lia|]. exists p, rest. auto.
  - change RHSA_pattern with
      (Cat Bol (Cat (Re.lit "RHSA:")
         (Re.cats [Plus Digit; Lit "-"; Plus Digit; Eol]))).
    split.
    + intros [x H]. apply run_prefix in H as (p & rest & -> & Hp & H); [|cbn; lia].
      exists p, rest. split; [reflexivity|]. split; [exact Hp|].
      apply (proj1 (run_number_pair_1 rest [])). eauto.
    + intros (p & rest & -> & Hp & H).
      apply (proj2 (run_number_pair_1 rest [])) in H as [x H]. exists x.
      apply run_prefix; [cbn; lia|]. exists p, rest. auto.
Qed.

(** ** More on the classifier *)

Lemma kind_object_class (k : kind) (s : string) (packages : pyval) :
  class_of (kind_object k s packages) = kind_class k.
Proof. destruct k; reflexivity. Qed.

Lemma create_vuln_Some_inv (s : string) (packages : pyval) (v : object) :
  create_vuln s packages = Some v ->
  exists k, Re.matches true (kind_pattern k) s = true /\
            v = kind_object k s packages.
Proof.
  unfold create_vuln. intros H.
  destruct (Re.matches true CVE_pattern s) eqn:Hc.
  { exists CVE_kind. split; [exact Hc|]. now injection H as <-. }
  destruct (Re.matches true DSA_pattern s) eqn:Hd.
  { exists DSA_kind. split; [exact Hd|]. now injection H as <-. }
  destruct (Re.matches true RHSA_pattern s) eqn:Hr; [|discriminate].
  exists RHSA_kind. split; [exact Hr|]. now injection H as <-.
Qed.

(** Within the texts of this development, the object of a kind is the
    answer exactly for the identifiers of the form of that kind. *)
Lemma create_vuln_kind_object_iff (k : kind) (s : string) (packages : pyval) :
  create_vuln s packages = Some (kind_object k s packages) <->
  advisory_form (kind_prefix k) (kind_min_digits k) s.
Proof.
  rewrite <- matches_kind_iff. split.
  - intros H. destruct (create_vuln_Some_inv _ _ _ H) as (k' & Hm & Hv).
    apply (f_equal class_of) in Hv. rewrite !kind_object_class in Hv.
    destruct k, k'; try discriminate Hv; exact Hm.
  - apply create_vuln_kind.
Qed.

(** X1.  An identifier of the form of a kind is accepted as that kind:
    the prefix CVE-, DSA- or RHSA: in any letter case, then digits (three
    or more for DSA), a hyphen, digits, and possibly one final newline.
    [create_vuln] answers with the object of that kind for the identifier
    as it is written. *)
Theorem create_vuln_accepts_form (k : kind) (s : string) (packages : pyval) :
  advisory_form (kind_prefix k) (kind_min_digits k) s ->
  create_vuln s packages = Some (kind_object k s packages).
Proof.
  apply create_vuln_kind_object_iff.
Qed.

Lemma create_vuln_accepts_form_witness :
  advisory_form "dsa-" 3 ("dSa-" +:+ "4321" +:+ "-" +:+ "1" +:+ nl) /\
  create_vuln ("dSa-" +:+ "4321" +:+ "-" +:+ "1" +:+ nl) PNone
  = Some (DSA ("dSa-" +:+ "4321" +:+ "-" +:+ "1" +:+ nl) PNone).
Proof.
  assert (advisory_form (kind_prefix DSA_kind) (kind_min_digits DSA_kind)
            ("dSa-" +:+ "4321" +:+ "-" +:+ "1" +:+ nl)) as Hform.
  { exists "dSa-", ("4321" +:+ "-" +:+ "1" +:+ nl).
    split; [reflexivity|]. split; [reflexivity|].
    exists "4321", "1", nl.
    split; [reflexivity|]. split; [reflexivity|]. split; [cbn; lia|].
    split; [reflexivity|]. split; [cbn; lia|]. right. reflexivity. }
  split; [exact Hform|].
  exact (create_vuln_accepts_form DSA_kind _ PNone Hform).
Defined.

(** X2.  Among the identifiers whose code points all lie below 256,
    [None] is the answer exactly for those that have the form of no
    kind.  (Beyond that range the patterns accept more: other decimal
    digits, and letters that lower to a letter of the prefix.) *)
Theorem create_vuln_None_below_256
    (cps : list N) (s : string) (packages : pyval) :
  text_of_code_points cps = Some s ->
  (create_vuln s packages = None <->
   forall k, ~ advisory_form (kind_prefix k) (kind_min_digits k) s).
Proof.
  intros _. split.
  - intros H k Hf. apply matches_kind_iff in Hf.
    now rewrite (create_vuln_None_inv _ _ H k) in Hf.
  - intros H. destruct (create_vuln s packages) as [v|] eqn:E; [|reflexivity].
    destruct (create_vuln_Some_inv _ _ _ E) as (k & Hm & _).
    apply matches_kind_iff in Hm. now destruct (H k).
Qed.

Lemma create_vuln_None_below_256_witness :
  text_of_code_points [68; 83; 65; 45; 49; 50; 45; 49]%N = Some "DSA-12-1" /\
  (create_vuln "DSA-12-1" PNone = None <->
   forall k, ~ advisory_form (kind_prefix k) (kind_min_digits k) "DSA-12-1").
Proof.
  split; [reflexivity|].
  apply (create_vuln_None_below_256 [68; 83; 65; 45; 49; 50; 45; 49]%N
           "DSA-12-1" PNone).
  reflexivity.
Defined.

(** X3.  An identifier that matches one of the three patterns matches
    neither of the other two: the order in which [create_vuln] tries them
    has no bearing on its answer. *)
Theorem kind_patterns_disjoint (k k' : kind) (s : string) :
  Re.matches true (kind_pattern k) s = true ->
  k <> k' ->
  Re.matches true (kind_pattern k') s = false.
Proof.
  apply kind_exclusive.
Qed.

Lemma kind_patterns_disjoint_witness :
  Re.matches true (kind_pattern DSA_kind) "DSA-4321-1" = true /\
  DSA_kind <> CVE_kind /\
  Re.matches true (kind_pattern CVE_kind) "DSA-4321-1" = false.
Proof.
  split; [reflexivity|]. split; [discriminate|].
  apply (kind_patterns_disjoint DSA_kind CVE_kind "DSA-4321-1");
    [reflexivity|discriminate].
Defined.

Lemma number_pair_lower (n : nat) (s : string) :
  number_pair n (PyText.lower s) <-> number_pair n s.
Proof.
  split.
  - intros (a & b & t & Hs & Ha & Hla & Hb & Hlb & Ht).
    apply lower_split in Hs as (a0 & r1 & -> & Ha0 & Hr1).
    apply lower_split in Hr1 as (h0 & r2 & -> & Hh0 & Hr2).
    apply lower_split in Hr2 as (b0 & t0 & -> & Hb0 & Ht0).
    destruct h0 as [|c [|d h0]]; try discriminate.
    cbn in Hh0. injection Hh0 as Hc. apply lower_hyphen in Hc. subst c.
    exists a0, b0, t0. subst a b.
    rewrite digits_lower in Ha, Hb. rewrite lower_length in Hla, Hlb.
    repeat split; auto.
    destruct Ht as [-> | ->].
    + destruct t0; [auto|discriminate].
    + destruct t0 as [|c [|d t0]]; try discriminate.
      cbn in Ht0. injection Ht0 as Hc. apply lower_newline in Hc. subst c. auto.
  - intros (a & b & t & -> & Ha & Hla & Hb & Hlb & Ht).
    exists a, b, t. rewrite !lower_append.
    rewrite (lower_digits a Ha), (lower_digits b Hb).
    repeat split; auto.
    destruct Ht as [-> | ->]; reflexivity.
Qed.

Lemma advisory_form_lower (prefix : string) (n : nat) (s : string) :
  advisory_form prefix n (PyText.lower s) <-> advisory_form prefix n s.
Proof.
  split.
  - intros (p & rest & Hs & Hp & Hn).
    apply lower_split in Hs as (p0 & r0 & -> & Hp0 & Hr0). subst p rest.
    exists p0, r0. rewrite lower_lower in Hp.
    apply (proj1 (number_pair_lower n r0)) in Hn. auto.
  - intros (p & rest & -> & Hp & Hn).
    exists (PyText.lower p), (PyText.lower rest).
    rewrite lower_append, lower_lower.
    apply (proj2 (number_pair_lower n rest)) in Hn. auto.
Qed.

(** X4.  Letter case has no bearing on the kind: an identifier and its
    lower-case form are answered with objects of the same class, or both
    with [None].  The object keeps the identifier as it was written. *)
Theorem create_vuln_case_insensitive (s : string) (packages : pyval) :
  option_map class_of (create_vuln (PyText.lower s) packages)
  = option_map class_of (create_vuln s packages) /\
  (forall v, create_vuln s packages = Some v ->
             getattr v "vuln_id" = Some (PStr s)).
Proof.
  split.
  - destruct (create_vuln s packages) as [v|] eqn:E.
    + destruct (create_vuln_Some_inv _ _ _ E) as (k & Hm & ->).
      apply (proj1 (matches_kind_iff k s)) in Hm.
      apply (proj2 (advisory_form_lower _ _ s)) in Hm.
      apply (proj2 (matches_kind_iff k _)) in Hm.
      rewrite (create_vuln_kind k _ packages Hm). cbn.
      now rewrite !kind_object_class.
    + destruct (create_vuln (PyText.lower s) packages) as [v|] eqn:E'; [|reflexivity].
      destruct (create_vuln_Some_inv _ _ _ E') as (k & Hm & _).
      apply (proj1 (matches_kind_iff k _)) in Hm.
      apply (proj1 (advisory_form_lower _ _ s)) in Hm.
      apply (proj2 (matches_kind_iff k s)) in Hm.
      now rewrite (create_vuln_None_inv _ _ E k) in Hm.
  - intros v E. destruct (create_vuln_Some_inv _ _ _ E) as (k & _ & ->).
    destruct k; reflexivity.
Qed.

Lemma endswith_append (u t : string) : PyText.endswith t (u +:+ t) = true.
Proof.
  induction u as [|c u IH].
  - rewrite append_nil_l.
    destruct t; cbn [PyText.endswith]; now rewrite String.eqb_refl.
  - rewrite append_cons. cbn [PyText.endswith]. rewrite IH. apply orb_true_r.
Qed.

(** X5.  An accepted identifier that does not end with a newline is
    accepted again, as the same kind, with a newline added; the object
    then holds the identifier with that newline. *)
Theorem create_vuln_final_newline (k : kind) (s : string) (packages : pyval) :
  create_vuln s packages = Some (kind_object k s packages) ->
  PyText.endswith (String PyChar.newline "") s = false ->
  create_vuln (s +:+ String PyChar.newline "") packages
  = Some (kind_object k (s +:+ String PyChar.newline "") packages).
Proof.
  intros H Hend. apply create_vuln_kind_object_iff in H.
  apply create_vuln_kind_object_iff.
  destruct H as (p & rest & -> & Hp & a & b & t & -> & Ha & Hla & Hb & Hlb & Ht).
  destruct Ht as [-> | ->].
  - exists p, (a +:+ "-" +:+ b +:+ String PyChar.newline "").
    split.
    { rewrite !append_assoc. now rewrite append_cons, !append_nil_l. }
    split; [exact Hp|].
    exists a, b, (String PyChar.newline ""). repeat split; auto.
  - exfalso. revert Hend.
    rewrite <- !append_assoc. now rewrite endswith_append.
Qed.

Lemma create_vuln_final_newline_witness :
  create_vuln "RHSA:2020-1234" PNone
  = Some (kind_object RHSA_kind "RHSA:2020-1234" PNone) /\
  PyText.endswith (String PyChar.newline "") "RHSA:2020-1234" = false /\
  create_vuln ("RHSA:2020-1234" +:+ String PyChar.newline "") PNone
  = Some (kind_object RHSA_kind
            ("RHSA:2020-1234" +:+ String PyChar.newline "") PNone).
Proof.
  split; [reflexivity|]. split; [reflexivity|].
  apply (create_vuln_final_newline RHSA_kind "RHSA:2020-1234" PNone); reflexivity.
Defined.

(** ** The patterns of a DSA *)

Lemma startswith_inv (t s : string) :
  PyStr.startswith t s = true <-> exists w, s = t +:+ w.
Proof.
  revert s. induction t as [|a t IH]; intros s.
  - split; [exists s; reflexivity|reflexivity].
  - destruct s as [|c s]; cbn [PyStr.startswith].
    + split; [discriminate|]. intros [w H]. discriminate.
    + rewrite andb_true_iff, Ascii.eqb_eq, IH. split.
      * intros [<- [w ->]]. exists w. reflexivity.
      * intros [w H]. rewrite append_cons in H. injection H as <- ->. eauto.
Qed.

Lemma opens_matches (p : pattern) (l : string) :
  opens p l = Re.matches (ignorecase p) (tree p) (PyStr.rstrip l).
Proof. reflexivity. Qed.

Lemma closes_matches (p : pattern) (l : string) :
  closes p l = Re.matches (ignorecase p) (tree p) (PyStr.rstrip l).
Proof. reflexivity. Qed.

Lemma run_bracket_id (vuln_id v : string) (cs : list (nat * string)) :
  (exists x, Re.run false (Re.cats [Lit "]"; Lit " "; Re.lit vuln_id])
               (Re.MState v false cs) (fun st => Some (Re.caps st)) = Some x) <->
  exists sfx, v = "] " +:+ vuln_id +:+ sfx.
Proof.
  cbn [Re.cats fold_right].
  rewrite run_Cat, (run_class false (Lit "]") _ v false cs _ eq_refl).
  split.
  - intros [x H]. destruct v as [|c v]; [discriminate|].
    cbn [Re.lit_test] in H.
    destruct (Ascii.eqb c "]") eqn:Hc; [|discriminate].
    apply Ascii.eqb_eq in Hc. subst c.
    rewrite run_Cat, (run_class false (Lit " ") _ v false cs _ eq_refl) in H.
    destruct v as [|c v]; [discriminate|].
    cbn [Re.lit_test] in H.
    destruct (Ascii.eqb c " ") eqn:Hc; [|discriminate].
    apply Ascii.eqb_eq in Hc. subst c.
    rewrite run_Cat in H.
    change (fun st1 => Re.run false Eps st1 (fun st => Some (Re.caps st)))
      with (fun st : Re.mstate => Some (Re.caps st)) in H.
    rewrite run_lit in H.
    destruct (PyStr.startswith vuln_id v) eqn:Hs; [|discriminate].
    apply startswith_inv in Hs as [w ->]. exists w. reflexivity.
  - intros [sfx ->]. rewrite !append_cons, append_nil_l.
    cbn [Re.lit_test]. rewrite Ascii.eqb_refl.
    rewrite run_Cat, (run_class false (Lit " ") _ _ false cs _ eq_refl).
    cbn [Re.lit_test]. rewrite Ascii.eqb_refl.
    rewrite run_Cat.
    change (fun st1 => Re.run false Eps st1 (fun st => Some (Re.caps st)))
      with (fun st : Re.mstate => Some (Re.caps st)).
    rewrite run_lit.
    assert (PyStr.startswith vuln_id (vuln_id +:+ sfx) = true) as ->
      by (apply startswith_inv; eauto).
    eauto.
Qed.

(** The texts the tree of [DSA_start_block] matches. *)
Lemma DSA_start_block_shape (vuln_id line : string) :
  Re.matches false (tree (DSA_start_block vuln_id)) line = true <->
  exists d sfx : string,
    line = "[" +:+ d +:+ "] " +:+ vuln_id +:+ sfx /\
    1 <= String.length d /\
    PyText.all (fun c => negb (Ascii.eqb c PyChar.newline)) d = true.
Proof.
  rewrite matches_run.
  change (tree (DSA_start_block vuln_id))
    with (Cat Bol (Cat (Lit "[") (Cat (Plus Any)
            (Re.cats [Lit "]"; Lit " "; Re.lit vuln_id])))).
  rewrite run_Cat, run_Bol, run_Cat.
  rewrite (run_class false (Lit "[") _ line true [] _ eq_refl).
  split.
  - intros [x H]. destruct line as [|c l]; [discriminate|].
    cbn [Re.lit_test] in H.
    destruct (Ascii.eqb c "[") eqn:Hc; [|discriminate].
    apply Ascii.eqb_eq in Hc. subst c.
    rewrite run_Cat, (run_plus false Any _ l false [] _ eq_refl) in H.
    apply plus_inv in H as (d & v & -> & Hd & Hlen & H).
    destruct (proj1 (run_bracket_id vuln_id v []) (ex_intro _ x H)) as [sfx ->].
    exists d, sfx. auto.
  - intros (d & sfx & -> & Hlen & Hd).
    rewrite append_cons, append_nil_l. cbn [Re.lit_test]. rewrite Ascii.eqb_refl.
    rewrite run_Cat, (run_plus false Any _ _ false [] _ eq_refl).
    destruct (proj2 (run_bracket_id vuln_id ("] " +:+ vuln_id +:+ sfx) []))
      as [x Hx]; [eauto|].
    now apply (plus_some _ _ d _ x).
Qed.

(** X6.  For an identifier of ordinary characters, the start pattern of
    its DSA matches exactly the texts that begin with a bracket, one or
    more characters other than a newline, a closing bracket, a space and
    the identifier as it was written; what comes after the identifier is
    free, so the pattern of [DSA-4321-1] also matches the entry of
    [DSA-4321-10]. *)
Theorem DSA_start_block_matches (vuln_id line : string) :
  ordinary_text vuln_id = true ->
  (Re.matches false (tree (DSA_start_block vuln_id)) line = true <->
   exists d sfx : string,
     line = "[" +:+ d +:+ "] " +:+ vuln_id +:+ sfx /\
     1 <= String.length d /\
     PyText.all (fun c => negb (Ascii.eqb c PyChar.newline)) d = true).
Proof.
  intros _. apply DSA_start_block_shape.
Qed.

Lemma DSA_start_block_matches_witness :
  ordinary_text "DSA-4321-1" = true /\
  Re.matches false (tree (DSA_start_block "DSA-4321-1"))
    "[03 Jan 2021] DSA-4321-10 pkgname" = true.
Proof.
  split; [reflexivity|].
  apply (proj2 (DSA_start_block_matches "DSA-4321-1"
                  "[03 Jan 2021] DSA-4321-10 pkgname" eq_refl)).
  exists "03 Jan 2021", "0 pkgname".
  split; [reflexivity|]. split; [cbn; lia|reflexivity].
Defined.

(** The texts the tree of [DSA_end_block] matches. *)
Lemma DSA_end_block_shape (line : string) :
  Re.matches false (tree DSA_end_block) line = true <->
  exists ws rest : string,
    line = ws +:+ "[" +:+ rest /\
    1 <= String.length ws /\
    PyText.all PyChar.isspace ws = true.
Proof.
  rewrite matches_run.
  change (tree DSA_end_block) with (Cat Bol (Cat (Plus Space) (Cat (Lit "[") Eps))).
  rewrite run_Cat, run_Bol, run_Cat.
  rewrite (run_plus false Space _ line true [] _ eq_refl).
  split.
  - intros [x H]. apply plus_inv in H as (ws & v & -> & Hws & Hlen & H).
    rewrite run_Cat, (run_class false (Lit "[") _ v false [] _ eq_refl) in H.
    destruct v as [|c v]; [discriminate|]. cbn [Re.lit_test] in H.
    destruct (Ascii.eqb c "[") eqn:Hc; [|discriminate].
    apply Ascii.eqb_eq in Hc. subst c. exists ws, v. auto.
  - intros (ws & rest & -> & Hlen & Hws).
    apply (plus_some _ _ ws _ []); auto.
Qed.

(** X7.  The end pattern of a DSA matches exactly the texts that begin
    with one or more whitespace characters and an opening bracket. *)
Theorem DSA_end_block_matches (line : string) :
  Re.matches false (tree DSA_end_block) line = true <->
  exists ws rest : string,
    line = ws +:+ "[" +:+ rest /\
    1 <= String.length ws /\
    PyText.all PyChar.isspace ws = true.
Proof.
  exact (DSA_end_block_shape line).
Qed.

Section GreedyOrder.

Context {A : Type}.
Variable p : ascii -> bool.
Variable k : string -> option A.

Lemma plus_longest (u v : string) :
  PyText.all p u = true -> 1 <= String.length u ->
  (forall c w, p c = true -> k (String c w) = None) ->
  match v with String c _ => p c = false | EmptyString => True end ->
  Greedy.plus p k (u +:+ v) = k v.
Proof.
  destruct u as [|c u]; cbn; intros Hu Hlen Hk Hv; [lia|].
  apply andb_true_iff in Hu as [Hc Hu].
  rewrite append_cons. cbn [Greedy.plus]. rewrite Hc.
  now apply star_longest.
Qed.

(** On a text all of the class, the shortest rest that [k] accepts wins. *)
Lemma star_from_end (v : string) :
  PyText.all p v = true ->
  (forall w t, v = w +:+ t -> 1 <= String.length w -> k t = None) ->
  Greedy.star p k v = k v.
Proof.
  induction v as [|c v IH]; [reflexivity|]. cbn. intros Hv Hk.
  apply andb_true_iff in Hv as [-> Hv].
  rewrite IH; [|exact Hv|].
  - rewrite (Hk (String c "") v); [reflexivity|reflexivity|cbn; lia].
  - intros w t -> Hw. apply (Hk (String c w) t); [reflexivity|cbn; lia].
Qed.

Lemma star_app_some (u v : string) (x : A) :
  PyText.all p u = true ->
  Greedy.star p k v = Some x ->
  Greedy.star p k (u +:+ v) = Some x.
Proof.
  induction u as [|c u IH]; intros Hu Hv; [exact Hv|].
  cbn in Hu. apply andb_true_iff in Hu as [Hc Hu].
  rewrite append_cons. cbn [Greedy.star]. now rewrite Hc, (IH Hu Hv).
Qed.

Lemma plus_shortest_rest (u v : string) (x : A) :
  PyText.all p (u +:+ v) = true -> 1 <= String.length u ->
  (forall w t, v = w +:+ t -> 1 <= String.length w -> k t = None) ->
  k v = Some x ->
  Greedy.plus p k (u +:+ v) = Some x.
Proof.
  rewrite all_append. intros [Hu Hv]%andb_true_iff Hlen Hk Hx.
  destruct u as [|c u]; [cbn in Hlen; lia|].
  cbn in Hu. apply andb_true_iff in Hu as [Hc Hu].
  rewrite append_cons. cbn [Greedy.plus]. rewrite Hc.
  apply star_app_some; [exact Hu|].
  now rewrite star_from_end.
Qed.

End GreedyOrder.

Lemma take_append (x v : string) :
  PyStr.take (String.length (x +:+ v) - String.length v) (x +:+ v) = x.
Proof.
  rewrite length_append.
  replace (String.length x + String.length v - String.length v)
    with (String.length x) by lia.
  induction x as [|c x IH].
  - rewrite append_nil_l. now destruct v.
  - rewrite append_cons. cbn. now rewrite IH.
Qed.

Lemma run_Group (ic : bool) (i : nat) (r : regex) (st : Re.mstate)
    (k : Re.mstate -> option (list (nat * string))) :
  Re.run ic (Group i r) st k
  = Re.run ic r st (fun st1 =>
      k (Re.MState (Re.rest st1) (Re.at_start st1)
           ((i, PyStr.take (String.length (Re.rest st)
                            - String.length (Re.rest st1)) (Re.rest st))
            :: Re.caps st1))).
Proof. reflexivity. Qed.

Lemma isspace_not_brace (c : ascii) :
  PyChar.isspace c = true -> Re.lit_test false "{" c = false.
Proof. destruct c as [[] [] [] [] [] [] [] []]; (reflexivity || discriminate). Qed.

(** The record [DSA_search_params] finds on a line with a text in
    braces. *)
Lemma DSA_search_params_fields (ws x y : string) :
  PyText.all PyChar.isspace ws = true ->
  1 <= String.length ws ->
  PyText.all (fun c => negb (Ascii.eqb c PyChar.newline)) x = true ->
  1 <= String.length x ->
  PyText.all (fun c => negb (Ascii.eqb c PyChar.newline)
                       && negb (Ascii.eqb c "}")) y = true ->
  pattern_search DSA_search_params (ws +:+ "{" +:+ x +:+ "}" +:+ y)
  = Some [Some x].
Proof.
  intros Hws Hlws Hx Hlx Hy.
  assert (Re.run false (tree DSA_search_params)
            (Re.MState (ws +:+ "{" +:+ x +:+ "}" +:+ y) true [])
            (fun st => Some (Re.caps st)) = Some [(1, x)]) as Hrun.
  { change (tree DSA_search_params)
      with (Cat Bol (Cat (Plus Space) (Cat (Lit "{")
              (Cat (Group 1 (Plus Any)) (Cat (Lit "}") Eps))))).
    rewrite run_Cat, run_Bol, run_Cat.
    rewrite (run_plus false Space _ _ true [] _ eq_refl).
    rewrite (plus_longest PyChar.isspace _ ws ("{" +:+ x +:+ "}" +:+ y) Hws Hlws);
      [ | intros c w Hc; rewrite run_Cat;
          rewrite (run_class false (Lit "{") _ _ false [] _ eq_refl);
          now rewrite (isspace_not_brace c Hc)
        | reflexivity ].
    rewrite append_cons, append_nil_l.
    rewrite run_Cat, (run_class false (Lit "{") _ _ false [] _ eq_refl).
    change (Re.lit_test false "{" "{") with true. cbv iota.
    rewrite run_Cat, run_Group.
    rewrite (run_plus false Any _ _ false [] _ eq_refl).
    cbn [Re.rest Re.at_start Re.caps].
    apply plus_shortest_rest; auto.
    - rewrite all_append. rewrite Hx. cbn [andb].
      rewrite append_cons, append_nil_l. cbn [PyText.all].
      change (negb (Ascii.eqb "}" PyChar.newline)) with true. cbn [andb].
      clear -Hy. induction y as [|c y IH]; [reflexivity|].
      cbn in Hy |- *. apply andb_true_iff in Hy as [Hc Hy].
      apply andb_true_iff in Hc as [-> _]. now apply IH.
    - intros w t Hv Hw.
      rewrite run_Cat, (run_class false (Lit "}") _ _ false _ _ eq_refl).
      destruct w as [|b w]; [cbn in Hw; lia|].
      rewrite !append_cons, append_nil_l in Hv. injection Hv as _ ->.
      rewrite all_append in Hy. apply andb_true_iff in Hy as [_ Hy].
      destruct t as [|c t]; [reflexivity|].
      cbn in Hy. apply andb_true_iff in Hy as [Hc _].
      apply andb_true_iff in Hc as [_ Hc]. cbn [Re.lit_test].
      now destruct (Ascii.eqb c "}").
    - rewrite run_Cat, (run_class false (Lit "}") _ _ false _ _ eq_refl).
      rewrite append_cons, append_nil_l.
      change (Re.lit_test false "}" "}") with true. cbv iota.
      cbn [Re.run Re.caps].
      change (String "}" y) with ("}" +:+ y).
      now rewrite take_append. }
  unfold pattern_search, Re.search.
  destruct (ws +:+ "{" +:+ x +:+ "}" +:+ y) eqn:E;
    cbn [Re.search_from]; cbn [ignorecase DSA_search_params] in *;
    rewrite Hrun; reflexivity.
Qed.

(** X8.  On a line made of whitespace, a brace, a text [x], a closing
    brace and a rest without another closing brace, the search pattern of
    a DSA finds one record whose only field is [x]: the group runs to the
    last closing brace of the line. *)
Theorem DSA_search_params_record (ws x y : string) :
  PyText.all PyChar.isspace ws = true ->
  1 <= String.length ws ->
  PyText.all (fun c => negb (Ascii.eqb c PyChar.newline)) x = true ->
  1 <= String.length x ->
  PyText.all (fun c => negb (Ascii.eqb c PyChar.newline)
                       && negb (Ascii.eqb c "}")) y = true ->
  pattern_search DSA_search_params (ws +:+ "{" +:+ x +:+ "}" +:+ y)
  = Some [Some x].
Proof.
  exact (DSA_search_params_fields ws x y).
Qed.

Lemma DSA_search_params_record_witness :
  pattern_search DSA_search_params (tab +:+ "{" +:+ "CVE-2021-0001 CVE-2021-0002" +:+ "}" +:+ "")
  = Some [Some "CVE-2021-0001 CVE-2021-0002"].
Proof.
  apply (DSA_search_params_record tab "CVE-2021-0001 CVE-2021-0002" "");
    first [reflexivity | cbn; lia].
Defined.

(** ** Trailing whitespace *)

Lemma rstrip_append (u v : string) :
  PyStr.rstrip v <> "" -> PyStr.rstrip (u +:+ v) = u +:+ PyStr.rstrip v.
Proof.
  intros Hv. induction u as [|c u IH]; [reflexivity|].
  rewrite !append_cons. cbn [PyStr.rstrip]. rewrite IH.
  destruct (u +:+ PyStr.rstrip v) eqn:E; [|reflexivity].
  destruct u; [|discriminate]. now rewrite append_nil_l in E.
Qed.

Lemma rstrip_spaces (w : string) :
  PyText.all PyChar.isspace w = true -> PyStr.rstrip w = "".
Proof.
  induction w as [|c w IH]; [reflexivity|]. cbn.
  intros [Hc Hw]%andb_true_iff. now rewrite (IH Hw), Hc.
Qed.

Lemma rstrip_append_spaces (s w : string) :
  PyText.all PyChar.isspace w = true ->
  PyStr.rstrip (s +:+ w) = PyStr.rstrip s.
Proof.
  intros Hw. induction s as [|c s IH].
  - rewrite append_nil_l. now apply rstrip_spaces.
  - rewrite append_cons. cbn [PyStr.rstrip]. now rewrite IH.
Qed.

Lemma rstrip_idem (s : string) : PyStr.rstrip (PyStr.rstrip s) = PyStr.rstrip s.
Proof.
  induction s as [|c s IH]; [reflexivity|]. cbn [PyStr.rstrip].
  destruct (PyStr.rstrip s) as [|d t] eqn:E.
  - destruct (PyChar.isspace c) eqn:Hc; [reflexivity|].
    cbn. now rewrite Hc.
  - cbn [PyStr.rstrip]. cbn [PyStr.rstrip] in IH. rewrite IH. reflexivity.
Qed.

(** A text that starts with characters other than whitespace keeps them. *)
Lemma rstrip_keeps (u w : string) :
  PyText.all (fun c => negb (PyChar.isspace c)) u = true ->
  1 <= String.length u ->
  exists w', PyStr.rstrip (u +:+ w) = u +:+ w' /\ PyStr.rstrip (u +:+ w) <> "".
Proof.
  revert w. induction u as [|c u IH]; intros w Hu Hlen; [cbn in Hlen; lia|].
  cbn in Hu. apply andb_true_iff in Hu as [Hc Hu].
  apply negb_true_iff in Hc.
  rewrite append_cons. cbn [PyStr.rstrip].
  destruct u as [|d u].
  - rewrite append_nil_l. destruct (PyStr.rstrip w) as [|e t].
    + rewrite Hc. exists "". split; [reflexivity|discriminate].
    + exists (String e t). split; [reflexivity|discriminate].
  - destruct (IH w Hu) as (w' & Hw' & Hne); [cbn; lia|].
    rewrite Hw'. rewrite Hw' in Hne.
    destruct (String d u +:+ w') eqn:E; [contradiction|].
    exists w'. split; [now rewrite append_cons, E|discriminate].
Qed.

(** ** An entry of the advisory list *)

Lemma rstrip_cons (c : ascii) (w : string) :
  PyChar.isspace c = false -> PyStr.rstrip (String c w) = String c (PyStr.rstrip w).
Proof.
  intros Hc. cbn [PyStr.rstrip]. destruct (PyStr.rstrip w); [now rewrite Hc|reflexivity].
Qed.

Lemma rstrip_end (u : string) (c : ascii) (w : string) :
  PyChar.isspace c = false ->
  PyText.all PyChar.isspace w = true ->
  PyStr.rstrip (u +:+ String c w) = u +:+ String c "".
Proof.
  intros Hc Hw.
  assert (PyStr.rstrip (String c w) = String c "") as E
    by now rewrite (rstrip_cons c w Hc), (rstrip_spaces w Hw).
  rewrite rstrip_append; rewrite E; [reflexivity|discriminate].
Qed.

Lemma rstrip_field_line (x : string) :
  PyStr.rstrip (tab +:+ "{" +:+ x +:+ "}" +:+ nl) = tab +:+ "{" +:+ x +:+ "}" +:+ "".
Proof.
  replace (tab +:+ "{" +:+ x +:+ "}" +:+ nl)
    with ((tab +:+ "{" +:+ x) +:+ String "}" nl)
    by now rewrite !append_assoc.
  rewrite rstrip_end; [|reflexivity|reflexivity].
  now rewrite !append_assoc.
Qed.

Lemma rstrip_release_line (rel : string) :
  PyStr.rstrip (tab +:+ "[" +:+ rel +:+ nl)
  = tab +:+ "[" +:+ PyStr.rstrip (rel +:+ nl).
Proof.
  change ("[" +:+ rel +:+ nl) with (String "[" (rel +:+ nl)).
  rewrite rstrip_append; rewrite (rstrip_cons "[" _ eq_refl);
    [reflexivity|discriminate].
Qed.

Lemma rstrip_header_line (d vuln_id sfx : string) :
  PyText.all (fun c => negb (PyChar.isspace c)) vuln_id = true ->
  1 <= String.length vuln_id ->
  exists sfx',
    PyStr.rstrip ("[" +:+ d +:+ "] " +:+ vuln_id +:+ sfx +:+ nl)
    = "[" +:+ d +:+ "] " +:+ vuln_id +:+ sfx'.
Proof.
  intros Hid Hlen.
  destruct (rstrip_keeps vuln_id (sfx +:+ nl) Hid Hlen) as (sfx' & E & Hne).
  exists sfx'.
  replace ("[" +:+ d +:+ "] " +:+ vuln_id +:+ sfx +:+ nl)
    with (("[" +:+ d +:+ "] ") +:+ (vuln_id +:+ sfx +:+ nl))
    by now rewrite !append_assoc.
  rewrite rstrip_append; [|exact Hne]. rewrite E.
  now rewrite !append_assoc.
Qed.

Lemma DSA_entry_records
    (vuln_id d sfx rel : string) (xs : list string) (rest : list string) :
  PyText.all (fun c => negb (PyChar.isspace c)) vuln_id = true ->
  1 <= String.length vuln_id ->
  PyText.all (fun c => negb (Ascii.eqb c PyChar.newline)) d = true ->
  1 <= String.length d ->
  Forall (fun x => PyText.all (fun c => negb (Ascii.eqb c PyChar.newline)) x = true
                   /\ 1 <= String.length x) xs ->
  parse_file_by_block
    (("[" +:+ d +:+ "] " +:+ vuln_id +:+ sfx +:+ nl)
       :: List.map (fun x => tab +:+ "{" +:+ x +:+ "}" +:+ nl) xs
       ++ (tab +:+ "[" +:+ rel +:+ nl) :: rest)%list
    (DSA_start_block vuln_id) DSA_end_block DSA_search_params
  = List.map (fun x => [Some x]) xs.
Proof.
  intros Hid Hlid Hd Hld Hxs.
  pose proof (parse_file_by_block_closed
                (DSA_start_block vuln_id) DSA_end_block DSA_search_params []
                (List.map (fun x => tab +:+ "{" +:+ x +:+ "}" +:+ nl) xs) rest
                ("[" +:+ d +:+ "] " +:+ vuln_id +:+ sfx +:+ nl)
                (tab +:+ "[" +:+ rel +:+ nl)) as Hclosed.
  cbn [app] in Hclosed. rewrite Hclosed; clear Hclosed.
  - induction Hxs as [|x xs [Hx Hlx] _ IH]; [reflexivity|].
    cbn [List.map block_records]. rewrite rstrip_field_line.
    rewrite (DSA_search_params_fields tab x "" eq_refl (le_n 1) Hx Hlx eq_refl).
    now rewrite IH.
  - constructor.
  - rewrite opens_matches.
    destruct (rstrip_header_line d vuln_id sfx Hid Hlid) as [sfx' ->].
    apply DSA_start_block_shape. exists d, sfx'. auto.
  - clear -xs. induction xs as [|x xs IH]; constructor; [|exact IH].
    rewrite closes_matches, rstrip_field_line.
    change (ignorecase DSA_end_block) with false.
    match goal with |- ?m = false => destruct m eqn:E end; [|reflexivity].
    apply DSA_end_block_shape in E as (ws & r & E & Hlen & Hws).
    exfalso. destruct ws as [|c ws]; [cbn in Hlen; lia|].
    rewrite !append_cons, append_nil_l in E. injection E as <- E.
    destruct ws as [|c ws].
    + rewrite append_nil_l in E. discriminate.
    + rewrite append_cons in E. injection E as <- _.
      cbn in Hws. discriminate.
  - rewrite closes_matches, rstrip_release_line.
    apply DSA_end_block_shape. exists tab, (PyStr.rstrip (rel +:+ nl)).
    repeat split. cbn. lia.
Qed.

(** X9.  An entry of the advisory list: a header line with the
    identifier, lines that each hold a text in braces after a tab, and a
    release line that starts with a tab and a bracket.  With the
    configuration of the DSA of that identifier, an identifier of
    ordinary characters without whitespace, the extractor yields one
    record per line in braces, in order, whose only field is the text
    between the braces, and nothing of what follows the release line. *)
Theorem parse_file_by_block_DSA_entry
    (vuln_id d sfx rel : string) (xs : list string) (rest : list string) :
  ordinary_text vuln_id = true ->
  PyText.all (fun c => negb (PyChar.isspace c)) vuln_id = true ->
  1 <= String.length vuln_id ->
  PyText.all (fun c => negb (Ascii.eqb c PyChar.newline)) d = true ->
  1 <= String.length d ->
  Forall (fun x => PyText.all (fun c => negb (Ascii.eqb c PyChar.newline)) x = true
                   /\ 1 <= String.length x) xs ->
  parse_file_by_block
    (("[" +:+ d +:+ "] " +:+ vuln_id +:+ sfx +:+ nl)
       :: List.map (fun x => tab +:+ "{" +:+ x +:+ "}" +:+ nl) xs
       ++ (tab +:+ "[" +:+ rel +:+ nl) :: rest)%list
    (DSA_start_block vuln_id) DSA_end_block DSA_search_params
  = List.map (fun x => [Some x]) xs.
Proof.
  intros _. apply DSA_entry_records.
Qed.

Lemma parse_file_by_block_DSA_entry_witness :
  parse_file_by_block
    (("[" +:+ "03 Jan 2021" +:+ "] " +:+ "DSA-4321-1" +:+ " pkgname" +:+ nl)
       :: List.map (fun x => tab +:+ "{" +:+ x +:+ "}" +:+ nl)
            ["CVE-2021-0001"; "CVE-2021-0002 CVE-2021-0003"]
       ++ (tab +:+ "[" +:+ "buster] - pkgname 1.0" +:+ nl) :: two_blocks)%list
    (DSA_start_block "DSA-4321-1") DSA_end_block DSA_search_params
  = List.map (fun x => [Some x])
      ["CVE-2021-0001"; "CVE-2021-0002 CVE-2021-0003"].
Proof.
  apply (parse_file_by_block_DSA_entry "DSA-4321-1" "03 Jan 2021" " pkgname"
           "buster] - pkgname 1.0"
           ["CVE-2021-0001"; "CVE-2021-0002 CVE-2021-0003"] two_blocks);
    first [reflexivity | cbn; lia | repeat constructor; cbn; lia].
Defined.

(** ** More on the block extractor *)

(** X10.  When no line of the file opens a block, in particular when the
    file is empty, the extractor yields nothing. *)
Theorem parse_file_by_block_no_block
    (start_block end_block search_params : pattern) (f : list string) :
  Forall (fun l => opens start_block l = false) f ->
  parse_file_by_block f start_block end_block search_params = [].
Proof.
  intros Hf. unfold parse_file_by_block.
  rewrite <- (app_nil_r f). now rewrite parse_lines_before.
Qed.

Lemma parse_file_by_block_no_block_witness :
  parse_file_by_block
    [ tab +:+ "{CVE-2021-0001}" +:+ nl; tab +:+ "[buster] - pkgname 1.0" +:+ nl ]
    (DSA_start_block "DSA-4321-1") DSA_end_block DSA_search_params = [].
Proof.
  apply (parse_file_by_block_no_block
           (DSA_start_block "DSA-4321-1") DSA_end_block DSA_search_params).
  repeat constructor.
Defined.

Lemma parse_lines_from_line
    (start_block end_block search_params : pattern)
    (b : bool) (f : list string) (r : record) :
  In r (parse_lines start_block end_block search_params b f) ->
  exists l, In l f /\ pattern_search search_params (PyStr.rstrip l) = Some r.
Proof.
  revert b. induction f as [|l f IH]; intros b; [intros []|].
  cbn [parse_lines]. destruct b.
  - destruct (pattern_match end_block (PyStr.rstrip l)); [intros []|].
    destruct (pattern_search search_params (PyStr.rstrip l)) as [g|] eqn:E.
    + intros [<- | H].
      * exists l. split; [now left|exact E].
      * destruct (IH _ H) as (l' & Hl' & Hr). exists l'. split; [now right|exact Hr].
    + intros H. destruct (IH _ H) as (l' & Hl' & Hr).
      exists l'. split; [now right|exact Hr].
  - destruct (pattern_match start_block (PyStr.rstrip l)); intros H;
      destruct (IH _ H) as (l' & Hl' & Hr); exists l'; (split; [now right|exact Hr]).
Qed.

Lemma parse_lines_length
    (start_block end_block search_params : pattern)
    (b : bool) (f : list string) :
  length (parse_lines start_block end_block search_params b f)
  <= (if b then length f else Nat.pred (length f)).
Proof.
  revert b. induction f as [|l f IH]; intros b; [destruct b; cbn; lia|].
  cbn [parse_lines]. destruct b.
  - destruct (pattern_match end_block (PyStr.rstrip l)); [cbn; lia|].
    specialize (IH true). cbn in IH.
    destruct (pattern_search search_params (PyStr.rstrip l)); cbn; lia.
  - destruct (pattern_match start_block (PyStr.rstrip l)).
    + specialize (IH true). cbn in IH |- *. lia.
    + specialize (IH false). cbn in IH |- *. lia.
Qed.

(** X11.  Every record the extractor yields is the list of groups the
    search pattern finds on a line of the file, once stripped; the line
    that opens the block gives none, so there are fewer records than
    lines. *)
Theorem parse_file_by_block_records_from_lines
    (start_block end_block search_params : pattern) (f : list string) :
  (forall r, In r (parse_file_by_block f start_block end_block search_params) ->
     exists l, In l f /\ pattern_search search_params (PyStr.rstrip l) = Some r) /\
  length (parse_file_by_block f start_block end_block search_params)
  <= Nat.pred (length f).
Proof.
  split.
  - intros r. apply parse_lines_from_line.
  - apply (parse_lines_length start_block end_block search_params false).
Qed.

Lemma parse_lines_stripped
    (start_block end_block search_params : pattern)
    (b : bool) (f g : list string) :
  Forall2 (fun l l' => PyStr.rstrip l = PyStr.rstrip l') f g ->
  parse_lines start_block end_block search_params b f
  = parse_lines start_block end_block search_params b g.
Proof.
  intros H. revert b. induction H as [|l l' f g Hl _ IH]; intros b; [reflexivity|].
  cbn [parse_lines]. rewrite Hl. now rewrite !IH.
Qed.

(** X12.  The result depends on the lines only through their stripped
    form: two files whose lines agree up to trailing whitespace give the
    same records. *)
Theorem parse_file_by_block_trailing_whitespace
    (start_block end_block search_params : pattern) (f g : list string) :
  Forall2 (fun l l' => PyStr.rstrip l = PyStr.rstrip l') f g ->
  parse_file_by_block f start_block end_block search_params
  = parse_file_by_block g start_block end_block search_params.
Proof.
  apply parse_lines_stripped.
Qed.

Lemma parse_file_by_block_trailing_whitespace_witness :
  parse_file_by_block two_blocks
    (DSA_start_block "DSA-4321-1") DSA_end_block DSA_search_params
  = parse_file_by_block (List.map PyStr.rstrip two_blocks)
      (DSA_start_block "DSA-4321-1") DSA_end_block DSA_search_params.
Proof.
  apply (parse_file_by_block_trailing_whitespace
           (DSA_start_block "DSA-4321-1") DSA_end_block DSA_search_params
           two_blocks (List.map PyStr.rstrip two_blocks)).
  repeat constructor.
Defined.

(** Stripping the lines beforehand, or adding a line terminator to each,
    changes nothing. *)
Corollary parse_file_by_block_stripped
    (start_block end_block search_params : pattern) (f : list string) :
  parse_file_by_block (List.map PyStr.rstrip f) start_block end_block search_params
  = parse_file_by_block f start_block end_block search_params /\
  parse_file_by_block (List.map (fun l => l +:+ nl) f)
    start_block end_block search_params
  = parse_file_by_block f start_block end_block search_params.
Proof.
  split; apply parse_lines_stripped.
  - induction f; constructor; [apply rstrip_idem|assumption].
  - induction f; constructor; [now apply rstrip_append_spaces|assumption].
Qed.

Lemma parse_lines_extends
    (start_block end_block search_params : pattern)
    (b : bool) (f1 f2 : list string) :
  exists more,
    parse_lines start_block end_block search_params b (f1 ++ f2)%list
    = (parse_lines start_block end_block search_params b f1 ++ more)%list.
Proof.
  revert b. induction f1 as [|l f1 IH]; intros b.
  - exists (parse_lines start_block end_block search_params b f2). reflexivity.
  - cbn [app parse_lines]. destruct b.
    + destruct (pattern_match end_block (PyStr.rstrip l)); [exists []; reflexivity|].
      destruct (IH true) as [more ->].
      destruct (pattern_search search_params (PyStr.rstrip l)); exists more; reflexivity.
    + destruct (pattern_match start_block (PyStr.rstrip l)); apply IH.
Qed.

(** X13.  The records drawn from the first lines of a file are not
    changed by the lines that follow: the result on a longer file starts
    with the result on each of its beginnings. *)
Theorem parse_file_by_block_incremental
    (start_block end_block search_params : pattern) (f1 f2 : list string) :
  exists more,
    parse_file_by_block (f1 ++ f2)%list start_block end_block search_params
    = (parse_file_by_block f1 start_block end_block search_params ++ more)%list.
Proof.
  apply parse_lines_extends.
Qed.

(** ** More on the dictionary-path extractor *)

Lemma selected_nil (key_pattern : regex) (items : list (string * pyval)) :
  Forall (fun kv => Re.matches false key_pattern kv.1 = false) items ->
  selected key_pattern items = [].
Proof.
  induction 1 as [|kv items Hkv _ IH]; [reflexivity|].
  cbn [selected List.filter]. rewrite Hkv. exact IH.
Qed.

Lemma parse_dict_unfold (items : list (string * pyval))
    (key_pattern : regex) (key_list : list regex) (get_key : bool) :
  parse_dict (PDict items) (key_pattern :: key_list) get_key
  = match key_list with
    | [] => Return (List.map (collected get_key) (selected key_pattern items))
    | _ :: _ =>
        extend_all
          (List.map (fun kv => parse_dict kv.2 key_list get_key)
                    (selected key_pattern items))
    end.
Proof.
  destruct key_list as [|next key_list].
  - apply parse_dict_last_level.
  - apply parse_dict_inner_level.
Qed.

(** X14.  When no key of the dictionary matches the first pattern the
    result is the empty list, whatever the other patterns and the values
    are: nothing is descended into and nothing is raised. *)
Theorem parse_dict_no_match (items : list (string * pyval))
    (key_pattern : regex) (key_list : list regex) (get_key : bool) :
  Forall (fun kv => Re.matches false key_pattern kv.1 = false) items ->
  parse_dict (PDict items) (key_pattern :: key_list) get_key = Return [].
Proof.
  intros H. rewrite parse_dict_unfold, (selected_nil _ _ H).
  now destruct key_list.
Qed.

Lemma parse_dict_no_match_witness :
  parse_dict advisory_dict [Re.lit "RHSA"; Re.lit "x"] false = Return [].
Proof.
  apply (parse_dict_no_match
           [("CVE", PStr "a"); ("CVE-2020-1234", PStr "b"); ("bugzilla", PStr "c")]
           (Re.lit "RHSA") [Re.lit "x"] false).
  repeat constructor.
Defined.

Lemma extend_all_raise (rs : list (result (list pyval))) (e : exn) :
  extend_all rs = Raise e -> In (Raise e) rs.
Proof.
  induction rs as [|[found|e'] rs IH]; cbn [extend_all]; [discriminate| |].
  - destruct (extend_all rs) as [more|e'']; [discriminate|].
    intros [= ->]. right. now apply IH.
  - intros [= ->]. now left.
Qed.

Lemma extend_all_In_raise (rs : list (result (list pyval))) (e : exn) :
  In (Raise e) rs -> exists e', extend_all rs = Raise e'.
Proof.
  induction rs as [|[found|e'] rs IH]; cbn [extend_all In]; [intros []| |].
  - intros [H|H]; [discriminate|]. destruct (IH H) as [e'' ->]. eauto.
  - eauto.
Qed.

Lemma parse_dict_raise_inv (key_list : list regex) :
  forall (dictionary : pyval) (get_key : bool) (e : exn),
    parse_dict dictionary key_list get_key = Raise e -> e = no_keys.
Proof.
  induction key_list as [|key_pattern key_list IH]; intros d g e; [discriminate|].
  destruct d as [| | | | |items| |];
    try (cbn [parse_dict]; intros [= <-]; reflexivity).
  rewrite parse_dict_unfold. destruct key_list as [|next key_list]; [discriminate|].
  intros H. apply extend_all_raise in H.
  apply in_map_iff in H as (kv & Hkv & _). now apply IH in Hkv.
Qed.

(** X15.  On dictionaries keyed by texts and key patterns that compile,
    [parse_dict] raises exactly when a value that is no dictionary is
    reached with a pattern still left for it, by a path of keys that the
    patterns of their levels accept in turn; what it raises is then an
    [AttributeError]. *)
Theorem parse_dict_raises_iff
    (dictionary : pyval) (key_list : list regex) (get_key : bool) :
  (forall e : exn,
     parse_dict dictionary key_list get_key = Raise e ->
     exn_class e = "AttributeError") /\
  ((exists e : exn, parse_dict dictionary key_list get_key = Raise e) <->
   exists (keys : list string) (value : pyval),
     length keys < length key_list /\
     reached key_list keys dictionary value /\
     is_dict value = false).
Proof.
  split.
  { intros e H. apply parse_dict_raise_inv in H. now subst e. }
  revert dictionary.
  induction key_list as [|key_pattern key_list IH]; intros d.
  - split.
    + intros [e H]. discriminate H.
    + intros (keys & v & Hlen & _). cbn in Hlen. lia.
  - destruct (is_dict d) eqn:Hd.
    + destruct d as [| | | | |items| |]; try discriminate Hd.
      rewrite parse_dict_unfold. destruct key_list as [|next key_list].
      * split; [intros [e H]; discriminate H|].
        intros (keys & v & Hlen & Hr & Hv).
        destruct keys as [|k keys]; [|cbn in Hlen; lia].
        cbn in Hr. subst v. discriminate Hv.
      * split.
        -- intros [e H]. apply extend_all_raise in H.
           apply in_map_iff in H as ([k x] & Hkx & Hin).
           apply filter_In in Hin as [Hin Hm].
           destruct (proj1 (IH x) (ex_intro _ e Hkx)) as (keys & v & Hlen & Hr & Hv).
           exists (k :: keys), v. split; [cbn in *; lia|]. split; [|exact Hv].
           cbn [reached]. exists x. auto.
        -- intros (keys & v & Hlen & Hr & Hv).
           destruct keys as [|k keys].
           { cbn in Hr. subst v. discriminate Hv. }
           cbn [reached] in Hr. destruct Hr as (x & Hin & Hm & Hr).
           destruct (proj2 (IH x)) as [e He].
           { exists keys, v. split; [cbn in *; lia|]. auto. }
           apply (extend_all_In_raise _ e).
           apply in_map_iff. exists (k, x). split; [exact He|].
           apply filter_In. auto.
    + split.
      * intros _. exists [], d. split; [cbn; lia|]. split; [reflexivity|exact Hd].
      * intros _. exists no_keys. destruct d; try reflexivity. discriminate Hd.
Qed.

(** X16.  A value that is no dictionary raises as soon as a pattern is
    left for it: at the top, and also under a key that the pattern before
    selects, in which case nothing of what the other keys gave is
    returned. *)
Theorem parse_dict_not_a_dictionary
    (value : pyval) (key_pattern : regex) (key_list : list regex)
    (get_key : bool) :
  is_dict value = false ->
  parse_dict value (key_pattern :: key_list) get_key = Raise no_keys /\
  forall (items : list (string * pyval)) (key : string) (outer : regex),
    In (key, value) items ->
    Re.matches false outer key = true ->
    parse_dict (PDict items) (outer :: key_pattern :: key_list) get_key
    = Raise no_keys.
Proof.
  intros Hv.
  assert (parse_dict value (key_pattern :: key_list) get_key = Raise no_keys) as Htop
    by (destruct value; try reflexivity; discriminate).
  split; [exact Htop|].
  intros items key outer Hin Hm. rewrite parse_dict_unfold.
  assert (In (Raise no_keys)
            (List.map (fun kv => parse_dict kv.2 (key_pattern :: key_list) get_key)
                      (selected outer items))) as H.
  { apply in_map_iff. exists (key, value). split; [exact Htop|].
    apply filter_In. split; [exact Hin|exact Hm]. }
  destruct (extend_all_In_raise _ _ H) as [e He].
  rewrite He. f_equal. apply extend_all_raise in He.
  apply in_map_iff in He as (kv & Hkv & _). now apply parse_dict_raise_inv in Hkv.
Qed.

Lemma parse_dict_not_a_dictionary_witness :
  is_dict (PStr "b") = false /\
  parse_dict (PStr "b") [Re.lit "x"] false = Raise no_keys /\
  parse_dict advisory_dict [Re.lit "CVE"; Re.lit "x"] false = Raise no_keys.
Proof.
  split; [reflexivity|].
  destruct (parse_dict_not_a_dictionary (PStr "b") (Re.lit "x") [] false eq_refl)
    as [Htop Hin].
  split; [exact Htop|].
  apply (Hin [("CVE", PStr "a"); ("CVE-2020-1234", PStr "b"); ("bugzilla", PStr "c")]
             "CVE-2020-1234" (Re.lit "CVE")).
  - right. left. reflexivity.
  - reflexivity.
Defined.

Lemma extend_all_same_shape (A : Type) (f g : A -> result (list pyval)) (l : list A) :
  (forall a, same_shape (f a) (g a)) ->
  same_shape (extend_all (List.map f l)) (extend_all (List.map g l)).
Proof.
  intros Hfg. induction l as [|a l IH]; [reflexivity|].
  cbn [List.map extend_all]. specialize (Hfg a).
  destruct (f a) as [x|e], (g a) as [y|e']; cbn in Hfg; try contradiction.
  - destruct (extend_all (List.map f l)) as [xs|e],
             (extend_all (List.map g l)) as [ys|e']; cbn in IH |- *;
      try contradiction; [|exact IH].
    rewrite !length_app. lia.
  - exact Hfg.
Qed.

(** X17.  The two modes walk the dictionary alike: for the same
    dictionary and patterns they return lists of the same length, or
    both raise the same exception. *)
Theorem parse_dict_modes_agree (key_list : list regex) (dictionary : pyval) :
  same_shape (parse_dict dictionary key_list true)
             (parse_dict dictionary key_list false).
Proof.
  revert dictionary.
  induction key_list as [|key_pattern key_list IH]; intros d; [reflexivity|].
  destruct d as [| | | | |items| |]; try reflexivity.
  rewrite !parse_dict_unfold. destruct key_list as [|next key_list].
  - cbn. now rewrite !length_map.
  - apply extend_all_same_shape. intros kv. apply IH.
Qed.

Lemma extend_all_Forall (P : pyval -> Prop) (rs : list (result (list pyval)))
    (l : list pyval) :
  Forall (fun r => forall x, r = Return x -> Forall P x) rs ->
  extend_all rs = Return l -> Forall P l.
Proof.
  revert l. induction rs as [|[found|e] rs IH]; intros l Hrs; cbn [extend_all].
  - intros [= <-]. constructor.
  - destruct (extend_all rs) as [more|e]; [|discriminate].
    intros [= <-]. inversion Hrs as [|? ? Hr Hrs']; subst.
    apply Forall_app. split; [now apply Hr|now apply IH].
  - discriminate.
Qed.

(** X18.  In the mode that collects keys every item of the result is a
    string, however deep the patterns go. *)
Theorem parse_dict_keys_are_strings (key_list : list regex) (dictionary : pyval)
    (l : list pyval) :
  parse_dict dictionary key_list true = Return l ->
  Forall (fun v => is_str v = true) l.
Proof.
  revert dictionary l.
  induction key_list as [|key_pattern key_list IH]; intros d l.
  - intros [= <-]. constructor.
  - destruct d as [| | | | |items| |]; try discriminate.
    rewrite parse_dict_unfold. destruct key_list as [|next key_list].
    + intros [= <-]. apply Forall_map. now apply Forall_forall.
    + apply extend_all_Forall. apply Forall_map, Forall_forall.
      intros kv _ x. apply IH.
Qed.

Lemma parse_dict_keys_are_strings_witness :
  parse_dict advisory_dict RHSA_key_list true
  = Return [PStr "CVE"; PStr "CVE-2020-1234"] /\
  Forall (fun v => is_str v = true) [PStr "CVE"; PStr "CVE-2020-1234"].
Proof.
  split; [reflexivity|].
  apply (parse_dict_keys_are_strings RHSA_key_list advisory_dict). reflexivity.
Defined.

(** ** [match_all] and [match_any] *)

(** A pattern of ordinary characters is found in a text exactly when its
    text occurs in it. *)
Lemma search_lit (p s : string) (first : bool) :
  (match Re.search_from false (Re.lit p) first s with
   | Some _ => true
   | None => false
   end) = PyStr.contains p s.
Proof.
  revert first. induction s as [|c s IH]; intros first.
  - cbn [Re.search_from PyStr.contains]. rewrite run_lit.
    now destruct (PyStr.startswith p "").
  - cbn [Re.search_from PyStr.contains]. rewrite run_lit.
    destruct (PyStr.startswith p (String c s)); [reflexivity|].
    cbn [orb]. apply IH.
Qed.

(** X19.  For patterns of ordinary characters [match_all] tests that
    every text occurs in the string and [match_any] that one of them
    does: the search is not tied to the beginning of the string. *)
Theorem match_literals (s : string) (texts : list string) :
  match_all s (List.map Re.lit texts)
  = forallb (fun t => PyStr.contains t s) texts /\
  match_any s (List.map Re.lit texts)
  = existsb (fun t => PyStr.contains t s) texts.
Proof.
  unfold match_all, match_any. split.
  - induction texts as [|t texts IH]; [reflexivity|].
    cbn [List.map forallb]. unfold Re.search at 1. rewrite search_lit.
    destruct (PyStr.contains t s); [exact IH|reflexivity].
  - induction texts as [|t texts IH]; [reflexivity|].
    cbn [List.map existsb]. unfold Re.search at 1. rewrite search_lit.
    destruct (PyStr.contains t s); [reflexivity|exact IH].
Qed.

(** X20.  On an empty list of patterns [match_all] is true and
    [match_any] false; on any other list [match_all] implies
    [match_any].  Both go through a concatenation of lists as the
    conjunction and the disjunction of the parts. *)
Theorem match_all_any (s : string) (ps qs : list regex) :
  match_all s [] = true /\
  match_any s [] = false /\
  (ps <> [] -> match_all s ps = true -> match_any s ps = true) /\
  match_all s (ps ++ qs)%list = match_all s ps && match_all s qs /\
  match_any s (ps ++ qs)%list = match_any s ps || match_any s qs.
Proof.
  unfold match_all, match_any. repeat split.
  - destruct ps as [|p ps]; [contradiction|]. intros _. cbn [forallb existsb].
    destruct (Re.search false p s); [reflexivity|discriminate].
  - rewrite forallb_app.
    now destruct (forallb _ ps), (forallb _ qs).
  - rewrite existsb_app.
    now destruct (existsb _ ps), (existsb _ qs).
Qed.

(** ** [find_in_directory] *)

Lemma find_ge (t s : string) : (-1 <= PyText.find t s)%Z.
Proof.
  induction s as [|c s IH]; cbn [PyText.find].
  - destruct (PyStr.startswith t ""); lia.
  - destruct (PyStr.startswith t (String c s)); [lia|].
    destruct (Z.eqb_spec (PyText.find t s) (-1)); lia.
Qed.

(** [find] gives -1 exactly when the text does not occur. *)
Lemma find_contains (t s : string) :
  negb (Z.eqb (PyText.find t s) (-1)) = PyStr.contains t s.
Proof.
  induction s as [|c s IH]; cbn [PyText.find PyStr.contains].
  - now destruct (PyStr.startswith t "").
  - destruct (PyStr.startswith t (String c s)); [reflexivity|].
    cbn [orb]. rewrite <- IH. pose proof (find_ge t s).
    destruct (Z.eqb_spec (PyText.find t s) (-1)); [reflexivity|].
    cbn. destruct (Z.eqb_spec (PyText.find t s + 1) (-1)); [lia|reflexivity].
Qed.

Lemma find_in_listing_filter (directory file_name : string) (listing : list string) :
  find_in_listing directory file_name listing
  = List.map (path_join directory)
      (List.filter (fun f => PyStr.contains file_name f) listing).
Proof.
  induction listing as [|f listing IH]; [reflexivity|].
  cbn [find_in_listing List.filter]. rewrite find_contains.
  destruct (PyStr.contains file_name f); cbn [List.map]; now rewrite IH.
Qed.

Lemma contains_append_l (t u f : string) :
  PyStr.contains t f = true -> PyStr.contains t (u +:+ f) = true.
Proof.
  intros H. induction u as [|c u IH]; [exact H|].
  rewrite append_cons. cbn [PyStr.contains]. rewrite IH. apply orb_true_r.
Qed.

Lemma path_join_suffix (a b : string) : exists u, path_join a b = u +:+ b.
Proof.
  unfold path_join.
  destruct (PyStr.startswith "/" b); [exists ""; reflexivity|].
  destruct (String.eqb a "" || PyText.ends_with_sep a).
  - exists a. reflexivity.
  - exists (a +:+ "/"). now rewrite append_assoc.
Qed.

(** X21.  [find_in_directory] yields, in the order of the listing, the
    joined path of every entry whose name has [file_name] somewhere in
    it, not only of the entry of that very name; for a path that is no
    directory it yields nothing. *)
Theorem find_in_directory_yields
    (listdir : gmap string (list string)) (directory file_name : string) :
  find_in_directory listdir directory file_name
  = match listdir !! directory with
    | None => []
    | Some listing =>
        List.map (path_join directory)
          (List.filter (fun f => PyStr.contains file_name f) listing)
    end.
Proof.
  unfold find_in_directory. destruct (listdir !! directory); [|reflexivity].
  apply find_in_listing_filter.
Qed.

(** X22.  Every path that is yielded has [file_name] in it and ends with
    the name of an entry of the directory. *)
Theorem find_in_directory_paths
    (listdir : gmap string (list string)) (directory file_name path : string) :
  In path (find_in_directory listdir directory file_name) ->
  PyStr.contains file_name path = true /\
  exists listing f,
    listdir !! directory = Some listing /\ In f listing /\
    PyText.endswith f path = true.
Proof.
  unfold find_in_directory.
  destruct (listdir !! directory) as [listing|]; [|intros []].
  rewrite find_in_listing_filter. intros H.
  apply in_map_iff in H as (f & <- & Hf).
  apply filter_In in Hf as [Hin Hc].
  destruct (path_join_suffix directory f) as [u ->].
  split; [now apply contains_append_l|].
  exists listing, f. repeat split; auto. apply endswith_append.
Qed.

Lemma find_in_directory_paths_witness :
  In "/srv/pkg/foo-1.0.tar.gz"
     (find_in_directory
        (<["/srv/pkg" := ["README"; "foo-1.0.tar.gz"; "foo.dsc"]]> ∅)
        "/srv/pkg" "foo") /\
  PyStr.contains "foo" "/srv/pkg/foo-1.0.tar.gz" = true /\
  exists listing f,
    (<["/srv/pkg" := ["README"; "foo-1.0.tar.gz"; "foo.dsc"]]> ∅ : gmap string (list string))
      !! "/srv/pkg" = Some listing /\
    In f listing /\ PyText.endswith f "/srv/pkg/foo-1.0.tar.gz" = true.
Proof.
  split; [left; reflexivity|].
  apply (find_in_directory_paths
           (<["/srv/pkg" := ["README"; "foo-1.0.tar.gz"; "foo.dsc"]]> ∅)
           "/srv/pkg" "foo" "/srv/pkg/foo-1.0.tar.gz").
  left. reflexivity.
Defined.

Lemma contains_empty (s : string) : PyStr.contains "" s = true.
Proof. now destruct s. Qed.

(** X23.  With the empty text as [file_name] every entry of the
    directory is yielded. *)
Theorem find_in_directory_empty_name
    (listdir : gmap string (list string)) (directory : string)
    (listing : list string) :
  listdir !! directory = Some listing ->
  find_in_directory listdir directory ""
  = List.map (path_join directory) listing.
Proof.
  intros H. unfold find_in_directory. rewrite H, find_in_listing_filter.
  f_equal. clear H. induction listing as [|f listing IH]; [reflexivity|].
  cbn [List.filter]. rewrite contains_empty. now f_equal.
Qed.

Lemma find_in_directory_empty_name_witness :
  find_in_directory (<["/srv/pkg" := ["README"; "foo.dsc"]]> ∅) "/srv/pkg" ""
  = ["/srv/pkg/README"; "/srv/pkg/foo.dsc"].
Proof.
  apply (find_in_directory_empty_name
           (<["/srv/pkg" := ["README"; "foo.dsc"]]> ∅) "/srv/pkg"
           ["README"; "foo.dsc"]).
  reflexivity.
Defined.

(** ** The configuration of the built-in classes *)

Lemma DSA_as_init (vuln_id : string) (packages : pyval) :
  DSA vuln_id packages
  = Object DSA_cls
      (UnparsableVulnerability_init ∅ vuln_id packages DSA_base_url "plain" PNone
         (DSA_kwargs vuln_id)).
Proof. reflexivity. Qed.

Lemma RHSA_as_init (vuln_id : string) (packages : pyval) :
  RHSA vuln_id packages
  = Object RHSA_cls
      (UnparsableVulnerability_init ∅ vuln_id packages (RHSA_base_url vuln_id)
         "json" PNone RHSA_kwargs).
Proof. reflexivity. Qed.

(** A recognised keyword reaches the object. *)
Lemma init_keeps_allowed
    (vuln_id : string) (packages : pyval) (base_url parse_mode : string)
    (entrypoint_urls : pyval) (kwargs : gmap string pyval)
    (key : string) (value : pyval) :
  key ∈ allowed_keys ->
  kwargs !! key = Some value ->
  UnparsableVulnerability_init ∅ vuln_id packages base_url parse_mode
    entrypoint_urls kwargs !! key = Some value.
Proof.
  intros Hk Hv. unfold UnparsableVulnerability_init, Vulnerability_init.
  pose proof (proj1 (allowed_keys_spec key) Hk) as Hnames.
  rewrite !lookup_insert_ne
    by (intros <-; clear -Hnames;
        repeat (destruct Hnames as [Hnames|Hnames]; [discriminate|]);
        discriminate).
  rewrite dict_update_allowed, Hv. now destruct (decide (key ∈ allowed_keys)).
Qed.

(** X24.  Every keyword that [DSA.__init__] and [RHSA.__init__] pass on
    is a recognised one, so the whole configuration of the class is on
    the object; the options the class does not set are absent, and the
    lists of entrypoints and of equivalents start empty. *)
Theorem builtin_configuration_kept (vuln_id : string) (packages : pyval) :
  (forall key value,
     DSA_kwargs vuln_id !! key = Some value ->
     getattr (DSA vuln_id packages) key = Some value) /\
  (forall key value,
     RHSA_kwargs !! key = Some value ->
     getattr (RHSA vuln_id packages) key = Some value) /\
  getattr (DSA vuln_id packages) "key_list" = None /\
  getattr (DSA vuln_id packages) "xpaths" = None /\
  getattr (RHSA vuln_id packages) "start_block" = None /\
  getattr (RHSA vuln_id packages) "as_per_block" = None /\
  getattr (DSA vuln_id packages) "entrypoint_urls" = Some (PList []) /\
  getattr (RHSA vuln_id packages) "entrypoint_urls" = Some (PList []) /\
  getattr (DSA vuln_id packages) "equivalent_vulns" = Some (PList []) /\
  getattr (RHSA vuln_id packages) "equivalent_vulns" = Some (PList []).
Proof.
  split; [|split; [|repeat split]].
  - intros key value H. rewrite DSA_as_init. unfold getattr. cbn [attrs].
    apply init_keeps_allowed; [|exact H].
    unfold DSA_kwargs in H. rewrite !lookup_insert in H.
    apply allowed_keys_spec.
    repeat (case_decide; [subst key; tauto|]).
    rewrite lookup_empty in H. discriminate.
  - intros key value H. rewrite RHSA_as_init. unfold getattr. cbn [attrs].
    apply init_keeps_allowed; [|exact H].
    unfold RHSA_kwargs in H. rewrite !lookup_insert in H.
    apply allowed_keys_spec.
    repeat (case_decide; [subst key; tauto|]).
    rewrite lookup_empty in H. discriminate.
Qed.

(** ** From the identifier to the records *)

Lemma isspace_lower (c : ascii) :
  PyChar.isspace (PyChar.lower c) = PyChar.isspace c.
Proof. destruct c as [[] [] [] [] [] [] [] []]; reflexivity. Qed.

Lemma isdecimal_not_space (c : ascii) :
  PyChar.isdecimal c = true -> PyChar.isspace c = false.
Proof. destruct c as [[] [] [] [] [] [] [] []]; (reflexivity || discriminate). Qed.

Lemma nonspace_lower (p : string) :
  PyText.all (fun c => negb (PyChar.isspace c)) (PyText.lower p)
  = PyText.all (fun c => negb (PyChar.isspace c)) p.
Proof.
  induction p as [|c p IH]; [reflexivity|]. cbn. now rewrite isspace_lower, IH.
Qed.

Lemma digits_nonspace (a : string) :
  PyText.all PyChar.isdecimal a = true ->
  PyText.all (fun c => negb (PyChar.isspace c)) a = true.
Proof.
  induction a as [|c a IH]; [reflexivity|]. cbn.
  intros [Hc Ha]%andb_true_iff. now rewrite (isdecimal_not_space c Hc), (IH Ha).
Qed.

(** An identifier of the DSA form without a final newline has no
    whitespace in it. *)
Lemma DSA_form_nonspace (vuln_id : string) :
  advisory_form "dsa-" 3 vuln_id ->
  PyText.endswith (String PyChar.newline "") vuln_id = false ->
  PyText.all (fun c => negb (PyChar.isspace c)) vuln_id = true /\
  1 <= String.length vuln_id.
Proof.
  intros (p & rest & -> & Hp & a & b & t & -> & Ha & Hla & Hb & Hlb & Ht) Hend.
  destruct Ht as [-> | ->].
  - split.
    + rewrite !all_append, <- (nonspace_lower p), Hp.
      now rewrite (digits_nonspace a Ha), (digits_nonspace b Hb).
    + rewrite !length_append. lia.
  - exfalso. revert Hend. rewrite <- !append_assoc. now rewrite endswith_append.
Qed.

(** X25.  From the identifier to the records: when [create_vuln]
    answers an identifier that has no final newline with a DSA, the
    three patterns that object carries, run by the extractor on an entry
    of the advisory list for that identifier written as it was given,
    yield the texts in braces of the entry, one record each. *)
Theorem create_vuln_DSA_entry
    (vuln_id : string) (packages : pyval) (v : object)
    (start_block end_block search_params : pattern)
    (d sfx rel : string) (xs : list string) (rest : list string) :
  create_vuln vuln_id packages = Some v ->
  class_of v = DSA_cls ->
  getattr v "start_block" = Some (PPattern start_block) ->
  getattr v "end_block" = Some (PPattern end_block) ->
  getattr v "search_params" = Some (PPattern search_params) ->
  PyText.endswith (String PyChar.newline "") vuln_id = false ->
  PyText.all (fun c => negb (Ascii.eqb c PyChar.newline)) d = true ->
  1 <= String.length d ->
  Forall (fun x => PyText.all (fun c => negb (Ascii.eqb c PyChar.newline)) x = true
                   /\ 1 <= String.length x) xs ->
  parse_file_by_block
    (("[" +:+ d +:+ "] " +:+ vuln_id +:+ sfx +:+ nl)
       :: List.map (fun x => tab +:+ "{" +:+ x +:+ "}" +:+ nl) xs
       ++ (tab +:+ "[" +:+ rel +:+ nl) :: rest)%list
    start_block end_block search_params
  = List.map (fun x => [Some x]) xs.
Proof.
  intros Hv Hcls Hsb Heb Hsp Hend Hd Hld Hxs.
  destruct (create_vuln_Some_inv _ _ _ Hv) as (k & Hm & ->).
  rewrite kind_object_class in Hcls.
  destruct k; try discriminate Hcls.
  change (getattr (kind_object DSA_kind vuln_id packages) "start_block")
    with (Some (PPattern (DSA_start_block vuln_id))) in Hsb.
  change (getattr (kind_object DSA_kind vuln_id packages) "end_block")
    with (Some (PPattern DSA_end_block)) in Heb.
  change (getattr (kind_object DSA_kind vuln_id packages) "search_params")
    with (Some (PPattern DSA_search_params)) in Hsp.
  injection Hsb as <-. injection Heb as <-. injection Hsp as <-.
  apply (proj1 (matches_kind_iff DSA_kind vuln_id)) in Hm.
  destruct (DSA_form_nonspace vuln_id Hm Hend) as [Hid Hlid].
  now apply DSA_entry_records.
Qed.

Lemma create_vuln_DSA_entry_witness :
  parse_file_by_block
    (("[" +:+ "03 Jan 2021" +:+ "] " +:+ "DSA-4321-1" +:+ " pkgname" +:+ nl)
       :: List.map (fun x => tab +:+ "{" +:+ x +:+ "}" +:+ nl) ["CVE-2021-0001"]
       ++ (tab +:+ "[" +:+ "buster] - pkgname 1.0" +:+ nl) :: [])%list
    (DSA_start_block "DSA-4321-1") DSA_end_block DSA_search_params
  = List.map (fun x => [Some x]) ["CVE-2021-0001"].
Proof.
  apply (create_vuln_DSA_entry "DSA-4321-1" PNone (DSA "DSA-4321-1" PNone)
           (DSA_start_block "DSA-4321-1") DSA_end_block DSA_search_params
           "03 Jan 2021" " pkgname" "buster] - pkgname 1.0" ["CVE-2021-0001"] []);
    first [reflexivity | cbn; lia | repeat constructor; cbn; lia].
Defined.

(** ** Files *)

Lemma up_to_last_sep_none (p : string) :
  PyStr.contains "/" p = false -> up_to_last_sep p = "".
Proof.
  induction p as [|c p IH]; [reflexivity|].
  cbn [PyStr.contains PyStr.startswith up_to_last_sep].
  intros H. apply orb_false_iff in H as [Hc Hp].
  rewrite Hp. rewrite andb_true_r in Hc.
  rewrite Ascii.eqb_sym in Hc. now rewrite Hc.
Qed.

Lemma path_split_head_bare (p : string) :
  PyStr.contains "/" p = false -> path_split_head p = "".
Proof.
  intros H. unfold path_split_head. now rewrite (up_to_last_sep_none p H).
Qed.

(** X26.  A download that succeeded is not repeated: where a fetched
    file is a file afterwards, a second [download_item] for the same
    path without [overwrite] returns at once and leaves the world as the
    first call left it. *)
Theorem download_item_idempotent
    (world : Type) (isfile isdir : string -> world -> bool)
    (makedirs : string -> world -> world * result unit)
    (urlretrieve : string -> string -> world -> world * result unit)
    (url save_as : string) (overwrite : bool) (w w' : world) :
  (forall u s w0 w1, urlretrieve u s w0 = (w1, Return tt) -> isfile s w1 = true) ->
  download_item world isfile isdir makedirs urlretrieve url save_as overwrite w
  = (w', Return tt) ->
  download_item world isfile isdir makedirs urlretrieve url save_as false w'
  = (w', Return tt).
Proof.
  intros Hget. unfold download_item.
  destruct (isfile save_as w && negb overwrite) eqn:Hguard.
  - intros [= <-]. apply andb_true_iff in Hguard as [-> _]. reflexivity.
  - destruct (if negb (isdir (path_split_head save_as) w)
              then makedirs (path_split_head save_as) w
              else (w, Return tt)) as [w1 [[]|e]]; [|discriminate].
    intros H. now rewrite (Hget _ _ _ _ H).
Qed.

Lemma download_item_idempotent_witness :
  download_item (gmap string string) Toy.isfile Toy.isdir Toy.makedirs
    Toy.urlretrieve "https://example.org/a.tar.gz" "dl/a.tar.gz" false ∅
  = (<["dl/a.tar.gz" := "https://example.org/a.tar.gz"]> ∅, Return tt) /\
  download_item (gmap string string) Toy.isfile Toy.isdir Toy.makedirs
    Toy.urlretrieve "https://example.org/a.tar.gz" "dl/a.tar.gz" false
    (<["dl/a.tar.gz" := "https://example.org/a.tar.gz"]> ∅)
  = (<["dl/a.tar.gz" := "https://example.org/a.tar.gz"]> ∅, Return tt).
Proof.
  split; [reflexivity|].
  apply (download_item_idempotent (gmap string string) Toy.isfile Toy.isdir
           Toy.makedirs Toy.urlretrieve
           "https://example.org/a.tar.gz" "dl/a.tar.gz" false ∅).
  - intros u s w0 w1 [= <-]. unfold Toy.isfile.
    apply bool_decide_eq_true. rewrite lookup_insert_eq. eauto.
  - reflexivity.
Defined.

(** X27.  A path without a slash has the empty parent directory: when
    the file is to be fetched, the empty path is no directory and
    [os.makedirs] refuses it, [download_item] ends with that exception
    and nothing is fetched. *)
Theorem download_item_bare_name
    (world : Type) (isfile isdir : string -> world -> bool)
    (makedirs : string -> world -> world * result unit)
    (urlretrieve : string -> string -> world -> world * result unit)
    (url save_as : string) (overwrite : bool) (w w1 : world) (e : exn) :
  PyStr.contains "/" save_as = false ->
  isfile save_as w && negb overwrite = false ->
  isdir "" w = false ->
  makedirs "" w = (w1, Raise e) ->
  download_item world isfile isdir makedirs urlretrieve url save_as overwrite w
  = (w1, Raise e).
Proof.
  intros Hbare Hguard Hdir Hmk. unfold download_item.
  now rewrite Hguard, (path_split_head_bare save_as Hbare), Hdir, Hmk.
Qed.

Lemma download_item_bare_name_witness :
  download_item (gmap string string) Toy.isfile Toy.isdir Toy.makedirs
    Toy.urlretrieve "https://example.org/a.tar.gz" "a.tar.gz" false ∅
  = (∅, Raise (Exn "FileNotFoundError" "No such file or directory")).
Proof.
  apply (download_item_bare_name (gmap string string) Toy.isfile Toy.isdir
           Toy.makedirs Toy.urlretrieve
           "https://example.org/a.tar.gz" "a.tar.gz" false ∅ ∅
           (Exn "FileNotFoundError" "No such file or directory"));
    reflexivity.
Defined.

(** X28.  [write_response_to_file] opens the file for writing before it
    decodes the body: when the body cannot be decoded the exception of
    the decoder is raised with the file already opened, and closed again,
    and nothing is written. *)
Theorem write_response_to_file_undecodable
    (world : Type) (isfile : string -> world -> bool)
    (open_write : string -> world -> world * result unit)
    (write : string -> string -> world -> world * result unit)
    (close : string -> world -> world)
    (decode_utf8 : string -> result string)
    (r : response) (save_as : string) (overwrite : bool)
    (w w1 : world) (e : exn) :
  isfile save_as w && negb overwrite = false ->
  open_write save_as w = (w1, Return tt) ->
  decode_utf8 (body r) = Raise e ->
  write_response_to_file world isfile open_write write close decode_utf8
    r save_as overwrite w
  = (close save_as w1, Raise e).
Proof.
  intros Hguard Hopen Hdec. unfold write_response_to_file.
  now rewrite Hguard, Hopen, Hdec.
Qed.

Lemma write_response_to_file_undecodable_witness :
  write_response_to_file (gmap string string) Toy.isfile Toy.open_write
    Toy.write Toy.close Toy.decode_utf8
    (Response "https://example.org/a" (String (ascii_of_nat 255) ""))
    "out/a.html" true (<["out/a.html" := "old"]> ∅)
  = (Toy.close "out/a.html" (<["out/a.html" := ""]> (<["out/a.html" := "old"]> ∅)),
     Raise (Exn "UnicodeDecodeError" "invalid start byte")).
Proof.
  apply (write_response_to_file_undecodable (gmap string string) Toy.isfile
           Toy.open_write Toy.write Toy.close Toy.decode_utf8
           (Response "https://example.org/a" (String (ascii_of_nat 255) ""))
           "out/a.html" true (<["out/a.html" := "old"]> ∅)
           (<["out/a.html" := ""]> (<["out/a.html" := "old"]> ∅))
           (Exn "UnicodeDecodeError" "invalid start byte"));
    reflexivity.
Defined.

(** ** The locators of the objects *)








